(** * The fleet monitor "Moe" (nucypher/cli/moe.py)

    A shallow embedding of the monitoring overrides [MonitoringTracker] and
    [Moe], of the websocket wiring done by the [moe] command, and of the
    properties the specification states about them.

    The monitor publishes through the process-wide [hey_joe] registry and
    inherits from [FleetStateTracker] and [Character]; the inherited methods
    are an interface here (a record of functions), so that every statement
    about an override holds for every implementation of its base class. *)

From Stdlib Require Import String List ZArith QArith_base Bool Lia.
From stdpp Require Import base gmap strings list fin_maps pretty.
Import ListNotations.

Local Close Scope Q_scope.
#[local] Set Warnings "-register-all".
Local Open Scope string_scope.
Local Open Scope list_scope.

(** ** JSON values

    What [json.dumps] is applied to: the payloads handed to [hey_joe.send] and
    the [[topic, payload]] lists built by [send_states] and [send_nodes].  A
    Python dict keeps insertion order, hence the association list. *)

Inductive json : Type :=
| JNull
| JNum (z : Z)
| JStr (s : string)
| JArr (items : list json)
| JObj (members : list (string * json)).

Definition is_object (j : json) : bool :=
  match j with JObj _ => true | _ => false end.

(** ** Effects: the monitor's heap, the [hey_joe] outbox, exceptions *)

Inductive exn : Type :=
| AttributeError (attribute : string)
| BaseError (what : string).

Inductive outcome (A : Type) : Type :=
| Return (a : A)
| Raise (e : exn).
Arguments Return {A} a.
Arguments Raise {A} e.

(** One call [hey_joe.send(payload, topic)]. *)
Definition sent : Type := (json * string)%type.

(** The world a method runs in: the objects reachable from [self] (the
    character and its tracker), of a type [St] left to the base classes, and
    the calls made to [hey_joe.send] so far, oldest first. *)
Record World (St : Type) : Type := mkWorld {
  self : St;
  hey_joe_sent : list sent
}.
Arguments mkWorld {St} _ _.
Arguments self {St} _.
Arguments hey_joe_sent {St} _.

(** A method body: it returns or raises, and leaves a world behind either way
    (what was published before an exception stays published). *)
Definition Py (St A : Type) : Type := World St -> outcome A * World St.

Definition ret {St A} (a : A) : Py St A := fun w => (Return a, w).

Definition raise {St A} (e : exn) : Py St A := fun w => (Raise e, w).

Definition bind {St A B} (c : Py St A) (k : A -> Py St B) : Py St B :=
  fun w =>
    match c w with
    | (Return a, w') => k a w'
    | (Raise e, w') => (Raise e, w')
    end.

Notation "'let*' x ':=' c 'in' k" := (bind c (fun x => k))
  (at level 10, x name, c at level 100, k at level 200).

(** A method that touches the objects only, never [hey_joe]. *)
Definition Local_ (St A : Type) : Type := St -> outcome A * St.

Definition lift {St A} (m : Local_ St A) : Py St A :=
  fun w =>
    let (r, st) := m (self w) in
    (r, mkWorld st (hey_joe_sent w)).

(** Reading an attribute of, or calling a pure helper on, the current objects. *)
Definition read {St A} (f : St -> A) : Py St A := fun w => (Return (f (self w)), w).

Definition modify {St} (f : St -> St) : Py St unit :=
  fun w => (Return tt, mkWorld (f (self w)) (hey_joe_sent w)).

(** [hey_joe.send(payload, topic)]. *)
Definition hey_joe_send {St} (payload : json) (topic : string) : Py St unit :=
  fun w => (Return tt, mkWorld (self w) (hey_joe_sent w ++ [(payload, topic)])).

(** The messages of one topic, in publish order. *)
Definition on_topic (topic : string) (l : list sent) : list sent :=
  List.filter (fun m => String.eqb (snd m) topic) l.

(** ** The inherited interface *)

Section Inherited.
Context {St Node FleetState ArgsT ArgsR ArgsL : Type}.

(** [FleetStateTracker], the base of [MonitoringTracker].  The base
    [record_fleet_state] works on the tracker alone; the [abridged_*]
    helpers are serializers reading the objects as they are when called. *)
Record FleetStateTracker : Type := {
  base_record_fleet_state : ArgsT -> Local_ St (option (string * FleetState));
  abridged_state_details : St -> FleetState -> json;
  abridged_node_details : St -> Node -> json;
  abridged_states_dict : St -> json;
  abridged_nodes_dict : St -> json
}.

(** [Character] (with its [Learner] part), the base of [Moe].  The base
    [remember_node] may reach the tracker's overridden
    [record_fleet_state], and the base [learn_from_teacher_node] calls
    [self.remember_node], which is the override: it takes that method as
    its first argument.  [current_teacher_node] is not overridden and
    works on the character alone. *)
Record Character : Type := {
  base_remember_node : ArgsR -> Py St (option Node);
  base_learn_from_teacher_node :
    (ArgsR -> Py St (option Node)) -> ArgsL -> Py St (list Node);
  current_teacher_node : bool -> Local_ St (option Node);
  checksum_public_address : St -> Node -> string
}.

(** The same character with another [current_teacher_node]. *)
Definition with_current_teacher_node
    (query : bool -> Local_ St (option Node)) (C : Character) : Character :=
  {| base_remember_node := base_remember_node C;
     base_learn_from_teacher_node := base_learn_from_teacher_node C;
     current_teacher_node := query;
     checksum_public_address := checksum_public_address C |}.
End Inherited.
Arguments FleetStateTracker : clear implicits.
Arguments Character : clear implicits.

(** ** class MonitoringTracker(FleetStateTracker) *)

Module MonitoringTracker.
Section Methods.
Context {St Node FleetState ArgsT : Type}.
Variable T : FleetStateTracker St Node FleetState ArgsT.

(** The payload [{checksum: self.abridged_state_details(new_state)}]. *)
Definition state_payload (checksum : string) (new_state : FleetState) : Py St json :=
  let* details := read (fun st => abridged_state_details T st new_state) in
  ret (JObj [(checksum, details)]).

(** The call [hey_joe.send({checksum: ...}, "states")], with the objects
    as they are in [st]. *)
Definition state_event (st : St) (checksum : string) (new_state : FleetState) : sent :=
  (JObj [(checksum, abridged_state_details T st new_state)], "states").

(** The "states" messages owed for a base call, by its outcome and the
    objects it left: one for a new (checksum, state) pair, none
    otherwise. *)
Definition states_message (base : outcome (option (string * FleetState)) * St) : list sent :=
  match base with
  | (Return (Some (checksum, new_state)), st) => [state_event st checksum new_state]
  | _ => []
  end.

(** [record_fleet_state(self, *args, **kwargs)].  The base returns [None]
    or a two-element tuple, and a non-empty tuple is true. *)
Definition record_fleet_state (args : ArgsT) : Py St (option (string * FleetState)) :=
  let* new_state_or_none := lift (base_record_fleet_state T args) in
  match new_state_or_none with
  | Some (checksum, new_state) =>
      let* payload := state_payload checksum new_state in
      let* _ := hey_joe_send payload "states" in
      ret new_state_or_none
  | None => ret new_state_or_none
  end.
End Methods.
End MonitoringTracker.

(** ** class Moe(Character) *)

Module Moe.
Definition _SHORT_LEARNING_DELAY : Q := 1 # 2.
Definition _LONG_LEARNING_DELAY : Q := 30 # 1.
Definition LEARNING_TIMEOUT : Q := 10 # 1.
Definition _ROUNDS_WITHOUT_NODES_AFTER_WHICH_TO_SLOW_DOWN : nat := 25.

Section Methods.
Context {St Node FleetState ArgsT ArgsR ArgsL : Type}.
Variable T : FleetStateTracker St Node FleetState ArgsT.
Variable C : Character St Node ArgsR ArgsL.

(** [node.checksum_public_address], where [node] may be [None]. *)
Definition getattr_checksum_public_address (node : option Node) : Py St string :=
  match node with
  | Some n => read (fun st => checksum_public_address C st n)
  | None => raise (AttributeError "checksum_public_address")
  end.

(** The dict display
    [{node.checksum_public_address: MonitoringTracker.abridged_node_details(node)}]:
    the key is evaluated first, so an absent node raises before the
    serializer is reached. *)
Definition node_payload (node : option Node) : Py St json :=
  let* key := getattr_checksum_public_address node in
  match node with
  | Some n =>
      let* details := read (fun st => abridged_node_details T st n) in
      ret (JObj [(key, details)])
  | None => raise (AttributeError "checksum_public_address")
  end.

(** The calls [hey_joe.send({...}, "nodes")] and
    [hey_joe.send({"current_teacher": ...}, "teachers")] for a node that is
    there, with the objects as they are in [st]. *)
Definition node_event (st : St) (n : Node) : sent :=
  (JObj [(checksum_public_address C st n, abridged_node_details T st n)], "nodes").

Definition teacher_event (st : St) (n : Node) : sent :=
  (JObj [("current_teacher", JStr (checksum_public_address C st n))], "teachers").

(** The "nodes" messages owed for a base [remember_node] call, by its
    outcome: one for a node returned, none otherwise. *)
Definition nodes_message (base : outcome (option Node) * World St) : list sent :=
  match base with
  | (Return (Some n), w) => [node_event (self w) n]
  | _ => []
  end.

(** [remember_node(self, *args, **kwargs)].  A node object is true. *)
Definition remember_node (args : ArgsR) : Py St (option Node) :=
  let* new_node_or_none := base_remember_node C args in
  match new_node_or_none with
  | Some _ =>
      let* payload := node_payload new_node_or_none in
      let* _ := hey_joe_send payload "nodes" in
      ret new_node_or_none
  | None => ret new_node_or_none
  end.

(** [learn_from_teacher_node(self, *args, **kwargs)]. *)
Definition learn_from_teacher_node (args : ArgsL) : Py St (list Node) :=
  let* teacher := lift (current_teacher_node C false) in
  let* new_nodes := base_learn_from_teacher_node C remember_node args in
  let* payload := node_payload teacher in
  let* _ := hey_joe_send payload "nodes" in
  let* new_teacher := lift (current_teacher_node C false) in
  let* address := getattr_checksum_public_address new_teacher in
  let* _ := hey_joe_send (JObj [("current_teacher", JStr address)]) "teachers" in
  ret new_nodes.
End Methods.
End Moe.

(** ** The websocket service set up by the [moe] command *)

Module Service.
(** A connected websocket client: what [subscriber.sendMessage] was given,
    oldest first.  A message is kept as the JSON value that
    [json.dumps(message).encode()] serializes. *)
Definition Subscriber : Type := list json.

Definition sendMessage (message : json) (subscriber : Subscriber) : Subscriber :=
  subscriber ++ [message].

Section Wiring.
Context {St Node FleetState ArgsT : Type}.
Variable T : FleetStateTracker St Node FleetState ArgsT.

(** A follow-up handler; [monitor] is the closure variable of [moe], read
    when the handler runs. *)
Local Abbreviation Followup := (St -> Subscriber -> Subscriber).

Definition send_states : Followup := fun monitor subscriber =>
  let message := JArr [JStr "states"; abridged_states_dict T monitor] in
  sendMessage message subscriber.

Definition send_nodes : Followup := fun monitor subscriber =>
  let message := JArr [JStr "nodes"; abridged_nodes_dict T monitor] in
  sendMessage message subscriber.

(** [hey_joe.WebSocketService]: the listening address and the follow-up
    handlers registered per topic. *)
Record WebSocketService : Type := {
  ws_host : string;
  ws_port : Z;
  followups : gmap string Followup
}.

(** [hey_joe.WebSocketService(host, port)]: nothing registered yet. *)
Definition new_WebSocketService (host : string) (port : Z) : WebSocketService :=
  {| ws_host := host; ws_port := port; followups := ∅ |}.

Definition register_followup (topic : string) (handler : Followup)
    (service : WebSocketService) : WebSocketService :=
  {| ws_host := ws_host service;
     ws_port := ws_port service;
     followups := <[topic := handler]> (followups service) |}.

(** The "Websocket Service" block of [moe]. *)
Definition websocket_service (ws_port : Z) : WebSocketService :=
  let websocket_service := new_WebSocketService "127.0.0.1" ws_port in
  let websocket_service := register_followup "states" send_states websocket_service in
  register_followup "nodes" send_nodes websocket_service.

(** Modelled from the spec: what the [hey_joe] service of the hendrix
    library, which is not part of this repository, does with a registered
    follow-up (section 4.3, [register]): a subscriber joining a topic is
    handed to that topic's callback, which sends it the full snapshot; a
    topic without a callback sends nothing on joining. *)
Definition late_join (service : WebSocketService) (topic : string)
    (monitor : St) (subscriber : Subscriber) : Subscriber :=
  match followups service !! topic with
  | Some handler => handler monitor subscriber
  | None => subscriber
  end.
End Wiring.

(** Modelled from the spec: the framing [hey_joe.send] gives a published
    payload on the wire (section 6: a [[topic, payload]] pair). *)
Definition wire (m : sent) : json := JArr [JStr (snd m); fst m].

(** Modelled from the spec: [publish] delivers a message to every
    subscriber whose topic matches (section 4.3), in publish order. *)
Definition deliver (topic : string) (published : list sent)
    (subscriber : Subscriber) : Subscriber :=
  fold_left (fun s m => sendMessage (wire m) s) (on_topic topic published) subscriber.
End Service.

(** ** The base classes, as the specification describes them

    [FleetStateTracker] and [Character] live in [nucypher.network.nodes] and
    [nucypher.characters.base], outside the files at hand.  This module
    gives one implementation of the inherited interface, following sections
    3 and 4 of the specification, on which the overrides can be run. *)

Module Fleet.
(** Modelled from the spec: the NodeRecord of section 3, a peer's announced
    attributes under its identity key. *)
Record NodeRecord : Type := mkNode {
  identity : string;
  host : string;
  port : Z;
  last_seen : nat;
  version : nat
}.

(** Modelled from the spec: the FleetState of section 3 (checksum,
    timestamp, summary of the members). *)
Record FleetState : Type := mkFleetState {
  checksum : string;
  updated : nat;
  summary : list NodeRecord
}.

(** Modelled from the spec: the answer of the transport query [getPeers]
    of section 6. *)
Inductive reply : Type :=
| Peers (peers : list NodeRecord)
| Unreachable
| Timeout.

(** Modelled from the spec: the timing state of the LearningLoop of
    section 4.2: its interval and the empty rounds counted in a row. *)
Record LearningLoop : Type := mkLoop {
  interval : Q;
  empty_rounds : nat
}.

(** Modelled from the spec: the settings of the loop (section 4.2): the
    short and the long interval, and the configurable number of empty rounds
    in a row after which it backs off. *)
Record Delays : Type := mkDelays {
  short_delay : Q;
  long_delay : Q;
  slow_down_after : nat
}.

(** Modelled from the spec: what the monitor owns (section 5): the peer
    mapping, the state recorded last, the current-teacher pointer and the
    loop's timing; [transport] holds the answers the network will give to
    the coming rounds. *)
Record Monitor : Type := mkMonitor {
  known_nodes : gmap string NodeRecord;
  recorded : option FleetState;
  teacher : option NodeRecord;
  loop : LearningLoop;
  transport : list reply;
  clock : nat
}.

(** Assignments to the fields of the monitor. *)
Definition set_known_nodes (m : gmap string NodeRecord) (st : Monitor) : Monitor :=
  mkMonitor m (recorded st) (teacher st) (loop st) (transport st) (clock st).

Definition set_recorded (s : option FleetState) (st : Monitor) : Monitor :=
  mkMonitor (known_nodes st) s (teacher st) (loop st) (transport st) (clock st).

Definition set_teacher (t : option NodeRecord) (st : Monitor) : Monitor :=
  mkMonitor (known_nodes st) (recorded st) t (loop st) (transport st) (clock st).

Definition set_loop (l : LearningLoop) (st : Monitor) : Monitor :=
  mkMonitor (known_nodes st) (recorded st) (teacher st) l (transport st) (clock st).

(** A round begins: the transport's answer is consumed, the clock ticks. *)
Definition next_round (st : Monitor) : Monitor :=
  mkMonitor (known_nodes st) (recorded st) (teacher st) (loop st)
    (tail (transport st)) (S (clock st)).

(** *** Serializers *)

(** Modelled from the spec: the abridged detail objects of the glossary, a
    reduced view of a node record and of a fleet state. *)
Definition node_details (r : NodeRecord) : json :=
  JObj [("host", JStr (host r)); ("port", JNum (port r));
        ("last_seen", JNum (Z.of_nat (last_seen r)));
        ("version", JNum (Z.of_nat (version r)))].

Definition state_details (s : FleetState) : json :=
  JObj [("updated", JNum (Z.of_nat (updated s)));
        ("nodes", JArr (List.map (fun r => JStr (identity r)) (summary s)))].

(** Modelled from the spec: the abridged view of a node (glossary), taken
    from the record the mapping holds for that identity now, since a record
    is updated in place. *)
Definition abridged_node_details (st : Monitor) (r : NodeRecord) : json :=
  node_details (default r (known_nodes st !! identity r)).

(** Modelled from the spec: the abridged view of a fleet state. *)
Definition abridged_state_details (st : Monitor) (s : FleetState) : json :=
  state_details s.

(** Modelled from the spec: the snapshot of the current state (sections 4.3
    and 6), by checksum. *)
Definition abridged_states_dict (st : Monitor) : json :=
  JObj (match recorded st with
        | Some s => [(checksum s, state_details s)]
        | None => []
        end).

(** Modelled from the spec: the snapshot of all known nodes (section 6,
    status surface), by identity. *)
Definition abridged_nodes_dict (st : Monitor) : json :=
  JObj (List.map (fun kr => (fst kr, node_details (snd kr)))
          (map_to_list (known_nodes st))).

(** The "nodes" message that announces the record [r]. *)
Definition announcement (r : NodeRecord) : sent :=
  (JObj [(identity r, node_details r)], "nodes").

(** *** The back-off state machine *)

(** Modelled from the spec: the loop starts at the short interval. *)
Definition start (d : Delays) : LearningLoop := mkLoop (short_delay d) 0.

(** Modelled from the spec: FAST to SLOW after N empty rounds in a row,
    back to FAST on learning any new node (section 4.2). *)
Definition adjust_learning (d : Delays) (new_nodes : list NodeRecord)
    (l : LearningLoop) : LearningLoop :=
  match new_nodes with
  | [] =>
      let n := S (empty_rounds l) in
      mkLoop (if Nat.leb (slow_down_after d) n then long_delay d else interval l) n
  | _ :: _ => mkLoop (short_delay d) 0
  end.

(** Modelled from the spec: how a round ends, for the back-off: with the
    nodes it learned, or abandoned on a timeout or an unreachable teacher,
    which both count as a round without new nodes. *)
Inductive round : Type :=
| Learned (new_nodes : list NodeRecord)
| TimedOut
| TeacherUnreachable.

(** The new nodes a round counts for. *)
Definition learned (r : round) : list NodeRecord :=
  match r with Learned l => l | TimedOut | TeacherUnreachable => [] end.

(** The loop after a run of rounds. *)
Definition after_rounds (d : Delays) (rounds : list round) (l : LearningLoop) : LearningLoop :=
  fold_left (fun l r => adjust_learning d (learned r) l) rounds l.

Section Tracker.
(** The hash behind the checksum. *)
Variable digest : list (string * nat) -> string.

(** Modelled from the spec: the checksum is a function of the members'
    identities and versions, taken in the mapping's order. *)
Definition checksum_of (m : gmap string NodeRecord) : string :=
  digest (List.map (fun kr => (fst kr, version (snd kr))) (map_to_list m)).

(** Modelled from the spec: [record_fleet_state] of section 4.1: recompute
    the state, return the new (checksum, state) pair only if the checksum
    differs from the one recorded before, nothing otherwise. *)
Definition record_fleet_state (_ : unit) : Local_ Monitor (option (string * FleetState)) :=
  fun st =>
    let c := checksum_of (known_nodes st) in
    if bool_decide (checksum <$> recorded st = Some c) then (Return None, st)
    else
      let s := mkFleetState c (clock st) (List.map snd (map_to_list (known_nodes st))) in
      (Return (Some (c, s)), set_recorded (Some s) st).

(** Modelled from the spec: the [FleetStateTracker] base, from the parts
    above. *)
Definition tracker : FleetStateTracker Monitor NodeRecord FleetState unit :=
  @Build_FleetStateTracker Monitor NodeRecord FleetState unit
    record_fleet_state abridged_state_details abridged_node_details
    abridged_states_dict abridged_nodes_dict.

(** Modelled from the spec: [remember_node] of section 4.1: insert or
    update by identity key, trigger the recomputation of the state (through
    the tracker's own [record_fleet_state], which a subclass may
    override), return the record if it was newly inserted. *)
Definition remember_node
    (self_record_fleet_state : unit -> Py Monitor (option (string * FleetState)))
    (record : NodeRecord) : Py Monitor (option NodeRecord) :=
  let* known := read known_nodes in
  let* _ := modify (set_known_nodes (<[identity record := record]> known)) in
  let* _ := self_record_fleet_state tt in
  ret (match known !! identity record with
       | None => Some record
       | Some _ => None
       end).

(** Modelled from the spec: merging the peers a teacher announced, each
    through [self.remember_node] (section 4.2), keeping the ones that call
    returned. *)
Fixpoint merge (self_remember_node : NodeRecord -> Py Monitor (option NodeRecord))
    (peers : list NodeRecord) : Py Monitor (list NodeRecord) :=
  match peers with
  | [] => ret []
  | p :: rest =>
      let* new_or_none := self_remember_node p in
      let* news := merge self_remember_node rest in
      ret (match new_or_none with
           | Some n => n :: news
           | None => news
           end)
  end.

(** The nodes from the one with identity [i] on. *)
Fixpoint from_identity (i : string) (nodes : list NodeRecord) : list NodeRecord :=
  match nodes with
  | [] => []
  | n :: rest => if String.eqb (identity n) i then nodes else from_identity i rest
  end.

(** Modelled from the spec: round-robin over the known nodes: the node
    after the current teacher in the mapping's order, the first one when
    there is no current teacher or it is the last. *)
Definition next_teacher (known : gmap string NodeRecord)
    (current : option NodeRecord) : option NodeRecord :=
  let nodes := List.map snd (map_to_list known) in
  match current with
  | None => head nodes
  | Some t =>
      match from_identity (identity t) nodes with
      | _ :: n :: _ => Some n
      | _ => head nodes
      end
  end.

(** Advancing the current-teacher pointer. *)
Definition rotate_teacher (st : Monitor) : Monitor :=
  set_teacher (next_teacher (known_nodes st) (teacher st)) st.

(** Modelled from the spec: [current_teacher_node]: the current-teacher
    pointer, advanced first only when [cycle] asks for it (section 4.2:
    with cycle=false the pointer is not force-advanced). *)
Definition current_teacher_node (cycle : bool) : Local_ Monitor (option NodeRecord) :=
  fun st =>
    let st := if cycle then rotate_teacher st else st in
    (Return (teacher st), st).

(** Modelled from the spec: the peers a round brings: the transport's next
    answer; an unreachable teacher, a timeout or a silent network bring none
    and the round counts as empty (sections 4.2 and 7). *)
Definition announced (st : Monitor) : list NodeRecord :=
  match transport st with
  | Peers peers :: _ => peers
  | _ => []
  end.

Variable delays : Delays.

(** Modelled from the spec: [learn_from_teacher] of section 4.2: query the
    teacher, merge each peer through [self.remember_node], adjust the
    loop's interval, rotate the teacher, return the newly learned
    records. *)
Definition learn_from_teacher_node
    (self_remember_node : NodeRecord -> Py Monitor (option NodeRecord))
    (_ : unit) : Py Monitor (list NodeRecord) :=
  let* peers := read announced in
  let* _ := modify next_round in
  let* new_nodes := merge self_remember_node peers in
  let* _ := modify (fun st => set_loop (adjust_learning delays new_nodes (loop st)) st) in
  let* _ := modify rotate_teacher in
  ret new_nodes.

(** Modelled from the spec: the [Character] base of a monitor whose tracker
    class is [MonitoringTracker] (the [tracker_class] attribute of [Moe]);
    the identity key of a record is its checksum public address. *)
Definition character : Character Monitor NodeRecord NodeRecord unit :=
  @Build_Character Monitor NodeRecord NodeRecord unit
    (remember_node (MonitoringTracker.record_fleet_state tracker))
    learn_from_teacher_node
    current_teacher_node
    (fun _ r => identity r).
End Tracker.

(** The settings [Moe] gives the loop (its class attributes). *)
Definition moe_delays : Delays :=
  mkDelays Moe._SHORT_LEARNING_DELAY Moe._LONG_LEARNING_DELAY
    Moe._ROUNDS_WITHOUT_NODES_AFTER_WHICH_TO_SLOW_DOWN.

(** A digest to run the tracker with: the members' identities and versions,
    joined. *)
Definition join_digest (members : list (string * nat)) : string :=
  fold_right
    (fun m acc => String.append (fst m)
                    (String.append ":" (String.append (pretty (snd m)) (String.append ";" acc))))
    "" members.

(** A monitor that knows its seed node only and has it for teacher, as
    [moe] constructs it; [answers] is what the network will say. *)
Definition seeded (seed : NodeRecord) (answers : list reply) : Monitor :=
  mkMonitor {[ identity seed := seed ]} None (Some seed) (start moe_delays) answers 0.
End Fleet.

(** ** The tracker over a session *)

Module History.
Section Steps.
Context {St Node FleetState ArgsT : Type}.
Variable T : FleetStateTracker St Node FleetState ArgsT.

(** What happens to a monitoring tracker, one after the other: some
    change of the objects (a node remembered, refreshed, or nothing at
    all), or a call of [record_fleet_state]. *)
Inductive step : Type :=
| Mutate (f : St -> St)
| Record_fleet_state (args : ArgsT).

(** Running the steps on a [MonitoringTracker], up to the first exception. *)
Fixpoint run (steps : list step) : Py St unit :=
  match steps with
  | [] => ret tt
  | Mutate f :: rest =>
      let* _ := modify f in
      run rest
  | Record_fleet_state args :: rest =>
      let* _ := MonitoringTracker.record_fleet_state T args in
      run rest
  end.

(** The checksum transitions of the same steps, read off the base class
    alone: one entry for each call in which the base
    [record_fleet_state] returns a new (checksum, state) pair, none for a
    call in which it returns nothing. *)
Fixpoint transitions (steps : list step) (st : St) : list sent :=
  match steps with
  | [] => []
  | Mutate f :: rest => transitions rest (f st)
  | Record_fleet_state args :: rest =>
      match base_record_fleet_state T args st with
      | (Return (Some (checksum, new_state)), st') =>
          MonitoringTracker.state_event T st' checksum new_state :: transitions rest st'
      | (Return None, st') => transitions rest st'
      | (Raise _, _) => []
      end
  end.
End Steps.
End History.

(** ** The wire contract *)

Module Feed.
Definition topics : list string := ["nodes"; "states"; "teachers"].

Definition is_topic (topic : string) : bool := existsb (String.eqb topic) topics.

(** A mapping whose values are all detail objects. *)
Definition is_detail_mapping (payload : json) : bool :=
  match payload with
  | JObj members => forallb (fun kv => is_object (snd kv)) members
  | _ => false
  end.

(** The contract as section 6 of the specification words it: a two-element
    [[topic, payload]] array, the topic one of the three, the payload a
    mapping to abridged detail objects. *)
Definition wire_contract (message : json) : bool :=
  match message with
  | JArr [JStr topic; payload] => is_topic topic && is_detail_mapping payload
  | _ => false
  end.

(** The payload of a "teachers" message as the code builds it: the single
    key "current_teacher", mapped to an address string. *)
Definition is_teacher_notice (payload : json) : bool :=
  match payload with
  | JObj [(key, JStr _)] => String.eqb key "current_teacher"
  | _ => false
  end.

(** The contract the code keeps: as above for "nodes" and "states", the
    teacher notice for "teachers". *)
Definition feed_contract (message : json) : bool :=
  match message with
  | JArr [JStr topic; payload] =>
      if String.eqb topic "teachers" then is_teacher_notice payload
      else is_topic topic && is_detail_mapping payload
  | _ => false
  end.

Definition all_keep (contract : json -> bool) (published : list sent) : bool :=
  forallb (fun m => contract (Service.wire m)) published.
End Feed.

(** ** A small fleet to run the monitor on *)

Module Scenario.
Definition ursula : Fleet.NodeRecord := Fleet.mkNode "0xA" "10.0.0.1" 9151 0 1.
Definition bob : Fleet.NodeRecord := Fleet.mkNode "0xB" "10.0.0.2" 9151 0 1.
Definition carol : Fleet.NodeRecord := Fleet.mkNode "0xC" "10.0.0.3" 9151 0 1.

Definition tracker := Fleet.tracker Fleet.join_digest.
Definition character := Fleet.character Fleet.join_digest Fleet.moe_delays.

(** The monitor seeded with [ursula]; the network will answer the first
    round with [ursula] and [bob], and let the second time out. *)
Definition monitor : Fleet.Monitor :=
  Fleet.seeded ursula [Fleet.Peers [ursula; bob]; Fleet.Timeout].

Definition world : World Fleet.Monitor := mkWorld monitor [].

(** A monitor seeded with [ursula] whose first round will time out. *)
Definition quiet : World Fleet.Monitor :=
  mkWorld (Fleet.seeded ursula [Fleet.Timeout]) [].

(** The same monitor with no current teacher. *)
Definition orphan : World Fleet.Monitor :=
  mkWorld (Fleet.set_teacher None monitor) [].
End Scenario.

(** * The deployment painters (nucypher/cli/painting/deployment.py)

    The painters write to an emitter and call collaborators that live
    outside the files at hand (the registry, the chain client, other
    painters).  A painter is modelled by what it makes the emitter and the
    process do, in order, and by how it ends. *)

Module Painting.
(** The characters behind the escapes [\n] and [\r]. *)
Definition LF : string := String (Ascii.ascii_of_nat 10) "".
Definition CR : string := String (Ascii.ascii_of_nat 13) "".

(** [s * n] on a string. *)
Fixpoint str_mul (s : string) (n : nat) : string :=
  match n with
  | 0 => ""
  | S n => s +:+ str_mul s n
  end.

(** [s.center(width, fillchar)], as CPython pads: the left margin gets the
    odd character when both the margin and the width are odd. *)
Definition center (s : string) (width : nat) (fillchar : string) : string :=
  let len := String.length s in
  if Nat.leb width len then s
  else
    let marg := width - len in
    let left := marg / 2 + (if Nat.odd marg && Nat.odd width then 1 else 0) in
    str_mul fillchar left +:+ s +:+ str_mul fillchar (marg - left).

Inductive exn : Type :=
| ValueError (message : string)
| UnknownContract
| UnboundLocalError (name : string)
| OtherError (what : string).

Inductive result (A : Type) : Type :=
| Ok (a : A)
| Err (e : exn).
Arguments Ok {A} a.
Arguments Err {A} e.

(** A cell of a table handed to [tabulate]: a string, or an [NU] amount
    built by [NU.from_nunits]. *)
Inductive cell : Type :=
| Str (s : string)
| NU (nunits : Z).

(** What [emitter.echo] is given: a string, or the value of
    [tabulate.tabulate(rows, headers=..., tablefmt=...)], kept as its
    arguments since the rendering is the library's, or nothing at all
    ([emitter.echo()]). *)
Inductive message : Type :=
| Text (s : string)
| Tabulated (rows : list (list cell)) (headers : list string) (tablefmt : string)
| NoMessage.

(** What a painter does to the outside: [emitter.echo] with the keyword
    arguments the call gives ([None]: not given), [emitter.log.info],
    [time.sleep], [webbrowser.open_new_tab]. *)
Inductive event : Type :=
| Echo (m : message) (color : option string) (bold : option bool) (nl : option bool)
| LogInfo (s : string)
| Sleep (seconds : Z)
| OpenNewTab (url : string).

(** A painter's run: the events so far, and a value or the exception that
    ended it. *)
Definition Paint (A : Type) : Type := (list event * result A)%type.

Definition pret {A} (a : A) : Paint A := ([], Ok a).

Definition praise {A} (e : exn) : Paint A := ([], Err e).

Definition pbind {A B} (c : Paint A) (k : A -> Paint B) : Paint B :=
  match c with
  | (evs, Ok a) => let (evs', r) := k a in (evs ++ evs', r)
  | (evs, Err e) => (evs, Err e)
  end.

Notation "'let+' x ':=' c 'in' k" := (pbind c (fun x => k))
  (at level 10, x name, c at level 100, k at level 200).

Definition emit (e : event) : Paint unit := ([e], Ok tt).

(** A call that returns or raises and touches nothing else. *)
Definition call {A} (r : result A) : Paint A := ([], r).

(** [try: body / except <caught> as e: handler(e)]. *)
Definition try_except {A} (body : Paint A) (handler : exn -> option (Paint A)) : Paint A :=
  match body with
  | (evs, Ok a) => (evs, Ok a)
  | (evs, Err e) =>
      match handler e with
      | Some h => let (evs', r) := h in (evs ++ evs', r)
      | None => (evs, Err e)
      end
  end.

(** [try: body / except <caught> as e: handler(e) / else: orelse(value)]:
    an exception of the [else] suite is not caught. *)
Definition try_except_else {A B} (body : Paint A) (handler : exn -> option (Paint B))
    (orelse : A -> Paint B) : Paint B :=
  match body with
  | (evs, Ok a) => let (evs', r) := orelse a in (evs ++ evs', r)
  | (evs, Err e) =>
      match handler e with
      | Some h => let (evs', r) := h in (evs ++ evs', r)
      | None => (evs, Err e)
      end
  end.

(** [for x in items: body(x)]. *)
Fixpoint for_each {A} (items : list A) (body : A -> Paint unit) : Paint unit :=
  match items with
  | [] => pret tt
  | x :: rest =>
      let+ _ := body x in
      for_each rest body
  end.

(** [except ValueError as e] and [except BaseContractRegistry.UnknownContract]. *)
Definition on_ValueError {A} (handler : string -> Paint A) (e : exn) : option (Paint A) :=
  match e with
  | ValueError message => Some (handler message)
  | _ => None
  end.

Definition on_UnknownContract {A} (handler : Paint A) (e : exn) : option (Paint A) :=
  match e with
  | UnknownContract => Some handler
  | _ => None
  end.

(** ** paint_deployment_delay *)

(** [range(delay)[::-1]]. *)
Definition countdown (delay : Z) : list Z := rev (seqZ 0 delay).

Definition paint_deployment_delay (delay : Z) : Paint unit :=
  let+ _ := emit (Echo (Text ("Starting deployment in " +:+ pretty delay +:+ " seconds..."))
                    (Some "red") None None) in
  for_each (countdown delay)
    (fun i =>
       let+ _ := emit (Echo (Text (pretty i +:+ "...")) (Some "yellow") None None) in
       emit (Sleep 1)).

(** ** paint_contract_deployment *)

Section ContractDeployment.
Context {Receipt : Type}.
(** [nucypher.blockchain.eth.constants.NUCYPHER_TOKEN_CONTRACT_NAME]. *)
Variable NUCYPHER_TOKEN_CONTRACT_NAME : string.
(** [etherscan_url(item=, network=, is_token=)]: the link, or an exception. *)
Variable etherscan_url : string -> option string -> bool -> result string.
(** [paint_receipt_summary(emitter=, receipt=, chain_name=, transaction_type=)],
    a painter of another file: what it emits and how it ends. *)
Variable paint_receipt_summary : Receipt -> option string -> string -> Paint unit.

Definition paint_contract_deployment (contract_name contract_address : string)
    (receipts : list (string * Receipt)) (chain_name : option string)
    (open_in_browser : bool) : Paint unit :=
  let is_token_contract := String.eqb contract_name NUCYPHER_TOKEN_CONTRACT_NAME in
  let heading :=
    String.concat "" [CR; str_mul " " 80; LF; contract_name; " ("; contract_address; ")"] in
  let+ _ := emit (Echo (Text heading) None (Some true) None) in
  let+ _ := emit (Echo (Text (str_mul "*" (42 + 3 + String.length contract_name)))
                    None None None) in
  let+ _ :=
    try_except_else
      (call (etherscan_url contract_address chain_name is_token_contract))
      (on_ValueError (fun e => emit (LogInfo ("Failed Etherscan URL construction: " +:+ e))))
      (fun url => emit (Echo (Text (String.concat "" [" See "; url; LF])) None None None)) in
  let+ _ :=
    for_each receipts
      (fun item => paint_receipt_summary (snd item) chain_name (fst item)) in
  if open_in_browser then
    try_except_else
      (call (etherscan_url contract_address chain_name is_token_contract))
      (on_ValueError (fun e => emit (LogInfo ("Failed Etherscan URL construction: " +:+ e))))
      (fun url => emit (OpenNewTab url))
  else pret tt.
End ContractDeployment.

(** ** paint_input_allocation_file *)

Section Allocations.
(** The text of [NU.from_nunits(a)] in an f-string; [NU] is outside the
    files at hand and is taken to accept every amount. *)
Variable NU_from_nunits : Z -> string.

(** [amounts, periods = zip(...)] over the unpacked [list(substakes)]: with
    no substake the zip is empty and the unpacking into two names fails. *)
Definition unpack_substakes (substakes : list (Z * Z)) : Paint (list Z * list Z) :=
  match substakes with
  | [] => praise (ValueError "not enough values to unpack (expected 2, got 0)")
  | _ :: _ => pret (List.map fst substakes, List.map snd substakes)
  end.

(** [sum(amounts)]. *)
Definition sum (amounts : list Z) : Z := fold_left Z.add amounts 0%Z.

(** The loop over [allocations.items()], appending to [rows]. *)
Fixpoint allocation_rows (items : list (string * list (Z * Z))) (rows : list (list cell))
    : Paint (list (list cell)) :=
  match items with
  | [] => pret rows
  | (address, substakes) :: rest =>
      let+ unpacked := unpack_substakes substakes in
      let staker_deposit := NU (sum (fst unpacked)) in
      allocation_rows rest
        (rows ++
         [[Str address; staker_deposit;
           Str (String.concat LF
                  (List.map
                     (fun ap => NU_from_nunits (fst ap) +:+ " for " +:+ pretty (snd ap)
                                +:+ " periods")
                     substakes))]])
  end.

Definition paint_input_allocation_file (allocations : list (string * list (Z * Z)))
    : Paint unit :=
  let num_allocations := length allocations in
  let+ _ := emit (Echo (Text ("Found " +:+ pretty num_allocations +:+ " allocations:"))
                    None None None) in
  let+ _ := emit (Echo (Text (center "STAGED ALLOCATIONS" 80 "=")) None (Some true) None) in
  let headers := ["Checksum address"; "Total staked"; "Substakes"] in
  let+ rows := allocation_rows allocations [] in
  let+ _ := emit (Echo (Tabulated rows headers "fancy_grid") None None None) in
  emit (Echo NoMessage None None None).
End Allocations.

(** ** paint_deployer_contract_inspection *)

(** A contract object as the painter reads it: its address and version,
    and what the calls [functions.owner().call()] and
    [functions.target().call()] answer. *)
Record Contract : Type := {
  address : string;
  version : string;
  owner : string;
  target : string
}.

(** A contract agent: its name, its address, and [get_balance]. *)
Record Agent : Type := {
  agent_contract_name : string;
  agent_contract_address : string;
  get_balance : string -> Z
}.

(** A proxy deployer ([DispatcherDeployer], [StakingInterfaceRouterDeployer]). *)
Record Deployer : Type := {
  deployer_contract_address : string;
  deployer_contract : Contract
}.

(** A deployer class of
    [ContractAdministrator.dispatched_upgradeable_deployer_classes]: its
    [contract_name] and its [agency(registry=, contract=)]. *)
Record DeployerClass : Type := {
  class_contract_name : string;
  agency : Contract -> result Agent
}.

(** What the painter finds around it, for the registry it is given: the
    interface of [BlockchainInterfaceFactory.get_interface()], the registry
    and the classes it names.  A lookup in the registry and the making of an
    agent or a deployer return or raise; reading the chain (a balance, an
    owner) is taken to answer. *)
Record Surroundings : Type := {
  provider_uri : string;
  client_get_balance : string -> Z;
  get_contract_by_name : string -> string -> result Contract;
  filepath : string;
  get_agent_NucypherTokenAgent : result Agent;
  get_agent_PolicyManagerAgent : result Agent;
  StakingInterfaceAgent : result Agent;
  DispatcherDeployer : Contract -> string -> result Deployer;
  StakingInterfaceRouterDeployer : Contract -> string -> result Deployer;
  dispatched_upgradeable_deployer_classes : list DeployerClass;
  NucypherTokenAgent_contract_name : string;
  DispatcherDeployer_contract_name : string;
  StakingInterfaceRouterDeployer_contract_name : string;
  PolicyManagerDeployer_contract_name : string;
  fromWei_ether : Z -> string;
  NU_text : Z -> string;
  paint_fee_rate_range : Agent -> Paint unit
}.

Section Inspection.
Variable E : Surroundings.
Variable deployer_address : string.

(** [sep = '-' * 45]. *)
Definition sep : string := str_mul "-" 45.

Definition echo (s : string) : Paint unit := emit (Echo (Text s) None None None).

Definition echo_yellow (s : string) : Paint unit :=
  emit (Echo (Text s) (Some "yellow") None None).

Definition echo_sep_no_nl : Paint unit := emit (Echo (Text sep) None None (Some false)).

(** Reading the local [token_agent], which is bound only if the first
    [try] got past its first statement. *)
Definition read_token_agent (token_agent : option Agent) : Paint Agent :=
  match token_agent with
  | Some agent => pret agent
  | None => praise (UnboundLocalError "token_agent")
  end.

Definition provider_info : string :=
  String.concat ""
    [LF; LF; "* Web3 Provider"; LF;
     "===================================================================="; LF; LF;
     "Provider URI ............. "; provider_uri E; LF;
     "Registry  ................ "; filepath E; LF; LF;
     "* Standard Deployments"; LF;
     "====================================================================="; LF].

Definition token_contract_info (token_agent : Agent) : string :=
  String.concat ""
    [LF; LF; agent_contract_name token_agent; " ........... ";
     agent_contract_address token_agent; LF;
     "    ~ Ethers ............ ";
     fromWei_ether E (client_get_balance E (agent_contract_address token_agent));
     " ETH"; LF;
     "    ~ Tokens ............ ";
     NU_text E (get_balance token_agent (agent_contract_address token_agent))].

Definition banner : string :=
  String.concat ""
    [LF; "* Proxy-Contract Deployments"; LF;
     "====================================================================="].

Definition proxy_payload (token_agent agent : Agent) (bare_contract : Contract)
    (dispatcher_deployer : Deployer) : string :=
  String.concat ""
    [LF; agent_contract_name agent; " .... "; address bare_contract; LF;
     "    ~ Version ............ "; version bare_contract; LF;
     "    ~ Owner .............. "; owner bare_contract; LF;
     "    ~ Ethers ............. ";
     fromWei_ether E (client_get_balance E (address bare_contract)); " ETH"; LF;
     "    ~ Tokens ............. ";
     NU_text E (get_balance token_agent (address bare_contract)); LF;
     "    ~ Dispatcher ......... "; deployer_contract_address dispatcher_deployer; LF;
     "        ~ Owner .......... "; owner (deployer_contract dispatcher_deployer); LF;
     "        ~ Target ......... "; target (deployer_contract dispatcher_deployer); LF;
     "        ~ Ethers ......... ";
     fromWei_ether E (client_get_balance E (deployer_contract_address dispatcher_deployer));
     " ETH"; LF;
     "        ~ Tokens ......... ";
     NU_text E (get_balance token_agent (deployer_contract_address dispatcher_deployer))].

Definition preallocation_escrow_payload (token_agent staking_interface_agent : Agent)
    (bare_contract : Contract) (router_deployer : Deployer) : string :=
  String.concat ""
    [LF; agent_contract_name staking_interface_agent; " ......... ";
     address bare_contract; LF;
     "  ~ Ethers ............... ";
     fromWei_ether E (client_get_balance E (address bare_contract)); " ETH"; LF;
     "  ~ Tokens ............... ";
     NU_text E (get_balance token_agent (address bare_contract)); LF;
     "  ~ StakingInterfaceRouter "; address (deployer_contract router_deployer); LF;
     "        ~ Owner .......... "; owner (deployer_contract router_deployer); LF;
     "        ~ Target ......... "; target (deployer_contract router_deployer); LF;
     "        ~ Ethers ......... ";
     fromWei_ether E (client_get_balance E (deployer_contract_address router_deployer));
     " ETH"; LF;
     "        ~ Tokens ......... ";
     NU_text E (get_balance token_agent (deployer_contract_address router_deployer))].

Definition not_enrolled (contract_name : string) : string :=
  String.concat "" [LF; contract_name; " is not enrolled in "; filepath E].

(** The first [try]: it leaves [token_agent] bound or not. *)
Definition paint_token : Paint (option Agent) :=
  try_except_else
    (let+ token_agent := call (get_agent_NucypherTokenAgent E) in
     pret (token_agent, token_contract_info token_agent))
    (on_UnknownContract
       (let+ _ := echo_yellow (not_enrolled (NucypherTokenAgent_contract_name E)) in
        let+ _ := echo_sep_no_nl in
        pret None))
    (fun bound =>
       let+ _ := echo (snd bound) in
       pret (Some (fst bound))).

(** The body of the loop over the dispatched deployer classes. *)
Definition paint_dispatched (token_agent : option Agent)
    (contract_deployer_class : DeployerClass) : Paint unit :=
  try_except
    (let+ bare_contract :=
       call (get_contract_by_name E (class_contract_name contract_deployer_class)
               (DispatcherDeployer_contract_name E)) in
     let+ dispatcher_deployer := call (DispatcherDeployer E bare_contract deployer_address) in
     let+ agent := call (agency contract_deployer_class bare_contract) in
     let+ token := read_token_agent token_agent in
     let+ _ := echo (proxy_payload token agent bare_contract dispatcher_deployer) in
     echo_sep_no_nl)
    (on_UnknownContract
       (let+ _ := echo_yellow (not_enrolled (class_contract_name contract_deployer_class)) in
        echo_sep_no_nl)).

(** The [StakingInterface] block. *)
Definition paint_staking_interface (token_agent : option Agent) : Paint unit :=
  try_except
    (let+ staking_interface_agent := call (StakingInterfaceAgent E) in
     let+ bare_contract :=
       call (get_contract_by_name E (agent_contract_name staking_interface_agent)
               (StakingInterfaceRouterDeployer_contract_name E)) in
     let+ router_deployer :=
       call (StakingInterfaceRouterDeployer E bare_contract deployer_address) in
     let+ token := read_token_agent token_agent in
     let+ _ := echo (preallocation_escrow_payload token staking_interface_agent
                       bare_contract router_deployer) in
     echo sep)
    (on_UnknownContract
       (echo_yellow
          (String.concat "" [LF; "StakingInterface is not enrolled in "; filepath E]))).

(** The policy manager block. *)
Definition paint_policy_manager : Paint unit :=
  try_except
    (let+ policy_agent := call (get_agent_PolicyManagerAgent E) in
     let+ _ := paint_fee_rate_range E policy_agent in
     echo_sep_no_nl)
    (on_UnknownContract
       (let+ _ := echo_yellow (not_enrolled (PolicyManagerDeployer_contract_name E)) in
        echo_sep_no_nl)).

Definition paint_deployer_contract_inspection : Paint unit :=
  let+ _ := echo sep in
  let+ _ := echo provider_info in
  let+ token_agent := paint_token in
  let+ _ := echo banner in
  let+ _ := for_each (dispatched_upgradeable_deployer_classes E)
              (paint_dispatched token_agent) in
  let+ _ := paint_staking_interface token_agent in
  paint_policy_manager.
End Inspection.

(** *** Reading a run *)

Definition ended_with_UnknownContract {A} (run : Paint A) : bool :=
  match snd run with
  | Err UnknownContract => true
  | _ => false
  end.

(** The seconds slept, the tabs opened and the texts echoed in a run. *)
Definition slept (evs : list event) : Z :=
  fold_right (fun e acc => match e with Sleep s => (s + acc)%Z | _ => acc end) 0%Z evs.

Definition opened (evs : list event) : list string :=
  flat_map (fun e => match e with OpenNewTab url => [url] | _ => [] end) evs.

Definition echoed (evs : list event) : list string :=
  flat_map (fun e => match e with Echo (Text s) _ _ _ => [s] | _ => [] end) evs.

Definition echoed_in (color : string) (evs : list event) : list string :=
  flat_map (fun e => match e with
                     | Echo (Text s) (Some c) _ _ => if String.eqb c color then [s] else []
                     | _ => []
                     end) evs.

(** The second line of the heading of [paint_contract_deployment]. *)
Definition heading_line (contract_name contract_address : string) : string :=
  String.concat "" [contract_name; " ("; contract_address; ")"].

(** The row [paint_input_allocation_file] builds for a staker who has
    substakes: the address, the sum of the amounts, one line per substake. *)
Definition staked_row (NU_from_nunits : Z -> string) (item : string * list (Z * Z))
    : list cell :=
  [Str (fst item);
   NU (fold_right Z.add 0%Z (List.map fst (snd item)));
   Str (String.concat LF
          (List.map
             (fun ap => NU_from_nunits (fst ap) +:+ " for " +:+ pretty (snd ap) +:+ " periods")
             (snd item)))].

Definition has_substakes (item : string * list (Z * Z)) : bool :=
  match snd item with
  | [] => false
  | _ :: _ => true
  end.

Definition is_unknown {A} (r : result A) : bool :=
  match r with
  | Err UnknownContract => true
  | _ => false
  end.
End Painting.

(** ** Surroundings and characters to run the code on *)

Module Cases.
(** A character that has lost its teacher once the first round has begun. *)
Definition forgetful : Character Fleet.Monitor Fleet.NodeRecord Fleet.NodeRecord unit :=
  with_current_teacher_node
    (fun cycle st =>
       if Nat.eqb (Fleet.clock st) 0 then current_teacher_node Scenario.character cycle st
       else (Return None, st))
    Scenario.character.

Definition agent_of (name : string) (c : Painting.Contract) : Painting.Agent :=
  {| Painting.agent_contract_name := name;
     Painting.agent_contract_address := Painting.address c;
     Painting.get_balance := fun _ => 0%Z |}.

Definition deployer_class (name : string) : Painting.DeployerClass :=
  {| Painting.class_contract_name := name;
     Painting.agency := fun c => Painting.Ok (agent_of name c) |}.

Definition escrow : Painting.Contract :=
  {| Painting.address := "0xE5C"; Painting.version := "v1.2.3";
     Painting.owner := "0xAD1"; Painting.target := "0x7A6" |}.

(** A registry in which nothing is enrolled. *)
Definition empty_registry : Painting.Surroundings :=
  {| Painting.provider_uri := "ipc:///tmp/geth.ipc";
     Painting.client_get_balance := fun _ => 0%Z;
     Painting.get_contract_by_name := fun _ _ => Painting.Err Painting.UnknownContract;
     Painting.filepath := "/tmp/registry.json";
     Painting.get_agent_NucypherTokenAgent := Painting.Err Painting.UnknownContract;
     Painting.get_agent_PolicyManagerAgent := Painting.Err Painting.UnknownContract;
     Painting.StakingInterfaceAgent := Painting.Err Painting.UnknownContract;
     Painting.DispatcherDeployer := fun _ _ => Painting.Err Painting.UnknownContract;
     Painting.StakingInterfaceRouterDeployer :=
       fun _ _ => Painting.Err Painting.UnknownContract;
     Painting.dispatched_upgradeable_deployer_classes :=
       [deployer_class "StakingEscrow"; deployer_class "PolicyManager";
        deployer_class "Adjudicator"];
     Painting.NucypherTokenAgent_contract_name := "NuCypherToken";
     Painting.DispatcherDeployer_contract_name := "Dispatcher";
     Painting.StakingInterfaceRouterDeployer_contract_name := "StakingInterfaceRouter";
     Painting.PolicyManagerDeployer_contract_name := "PolicyManager";
     Painting.fromWei_ether := fun wei => pretty (wei / 1000000000000000000)%Z;
     Painting.NU_text := fun n => pretty n +:+ " NuNit";
     Painting.paint_fee_rate_range := fun _ => Painting.pret tt |}.

(** The same registry with the staking escrow and its dispatcher enrolled,
    the token still missing. *)
Definition escrow_without_token : Painting.Surroundings :=
  {| Painting.provider_uri := Painting.provider_uri empty_registry;
     Painting.client_get_balance := Painting.client_get_balance empty_registry;
     Painting.get_contract_by_name :=
       fun name _ =>
         if String.eqb name "StakingEscrow" then Painting.Ok escrow
         else Painting.Err Painting.UnknownContract;
     Painting.filepath := Painting.filepath empty_registry;
     Painting.get_agent_NucypherTokenAgent := Painting.Err Painting.UnknownContract;
     Painting.get_agent_PolicyManagerAgent := Painting.Err Painting.UnknownContract;
     Painting.StakingInterfaceAgent := Painting.Err Painting.UnknownContract;
     Painting.DispatcherDeployer :=
       fun c _ => Painting.Ok {| Painting.deployer_contract_address := "0xD15";
                                 Painting.deployer_contract := c |};
     Painting.StakingInterfaceRouterDeployer :=
       Painting.StakingInterfaceRouterDeployer empty_registry;
     Painting.dispatched_upgradeable_deployer_classes :=
       Painting.dispatched_upgradeable_deployer_classes empty_registry;
     Painting.NucypherTokenAgent_contract_name := "NuCypherToken";
     Painting.DispatcherDeployer_contract_name := "Dispatcher";
     Painting.StakingInterfaceRouterDeployer_contract_name := "StakingInterfaceRouter";
     Painting.PolicyManagerDeployer_contract_name := "PolicyManager";
     Painting.fromWei_ether := Painting.fromWei_ether empty_registry;
     Painting.NU_text := Painting.NU_text empty_registry;
     Painting.paint_fee_rate_range := fun _ => Painting.pret tt |}.

(** An [etherscan_url] that knows the main network only, and a painter of
    receipts that echoes the transaction's name. *)
Definition mainnet_only (item : string) (network : option string) (is_token : bool)
    : Painting.result string :=
  match network with
  | Some "mainnet" => Painting.Ok ("https://etherscan.io/address/" +:+ item)
  | _ => Painting.Err (Painting.ValueError "unknown network")
  end.

Definition name_only (receipt : json) (chain_name : option string)
    (transaction_type : string) : Painting.Paint unit :=
  Painting.emit (Painting.Echo (Painting.Text transaction_type) None None None).

Definition token_address : string := "0x4fE83213D56308330EC302a8BD641f1d0113A4Cc".
End Cases.

(** * Properties *)

Ltac py_unfold :=
  unfold bind, ret, raise, lift, read, modify, hey_joe_send in *; simpl in *.

Lemma on_topic_app topic (l1 l2 : list sent) :
  on_topic topic (l1 ++ l2) = on_topic topic l1 ++ on_topic topic l2.
Proof. unfold on_topic. apply List.filter_app. Qed.

Lemma deliver_appends topic published subscriber :
  Service.deliver topic published subscriber =
    subscriber ++ List.map Service.wire (on_topic topic published).
Proof.
  unfold Service.deliver. generalize (on_topic topic published) as l.
  intros l. revert subscriber.
  induction l as [|m l IH]; intros subscriber; simpl.
  - now rewrite app_nil_r.
  - rewrite IH. unfold Service.sendMessage. now rewrite <- app_assoc.
Qed.

Section Overrides.
Context {St Node FleetState ArgsT ArgsR ArgsL : Type}.
Variable T : FleetStateTracker St Node FleetState ArgsT.
Variable C : Character St Node ArgsR ArgsL.

Lemma record_fleet_state_unfold args w :
  MonitoringTracker.record_fleet_state T args w =
    let base := base_record_fleet_state T args (self w) in
    (fst base,
     mkWorld (snd base) (hey_joe_sent w ++ MonitoringTracker.states_message T base)).
Proof.
  unfold MonitoringTracker.record_fleet_state, MonitoringTracker.state_payload,
    MonitoringTracker.state_event, MonitoringTracker.states_message.
  py_unfold.
  destruct (base_record_fleet_state T args (self w)) as [[[[c s]|]|e] st]; simpl;
    rewrite ?app_nil_r; reflexivity.
Qed.

Lemma remember_node_unfold args w :
  Moe.remember_node T C args w =
    let base := base_remember_node C args w in
    (fst base,
     mkWorld (self (snd base))
       (hey_joe_sent (snd base) ++ Moe.nodes_message T C base)).
Proof.
  unfold Moe.remember_node, Moe.node_payload, Moe.getattr_checksum_public_address,
    Moe.node_event, Moe.nodes_message.
  py_unfold.
  destruct (base_remember_node C args w) as [[[n|]|e] [st out]]; simpl;
    rewrite ?app_nil_r; reflexivity.
Qed.

Lemma transitions_on_states steps st :
  on_topic "states" (History.transitions T steps st) = History.transitions T steps st.
Proof.
  revert st. induction steps as [|[f|args] rest IH]; intros st; simpl.
  - reflexivity.
  - apply IH.
  - destruct (base_record_fleet_state T args st) as [[[[c s]|]|e] st']; simpl;
      rewrite ?IH; reflexivity.
Qed.

Lemma run_publishes_transitions steps w :
  hey_joe_sent (snd (History.run T steps w)) =
    hey_joe_sent w ++ History.transitions T steps (self w).
Proof.
  revert w. induction steps as [|[f|args] rest IH]; intros w; simpl.
  - py_unfold. now rewrite app_nil_r.
  - unfold bind, modify. rewrite IH. reflexivity.
  - unfold bind. rewrite record_fleet_state_unfold. simpl.
    destruct (base_record_fleet_state T args (self w)) as [[[[c s]|]|e] st']; simpl.
    + rewrite IH. simpl. now rewrite <- app_assoc.
    + rewrite IH. simpl. now rewrite app_nil_r.
    + now rewrite !app_nil_r.
Qed.

(** C8.  The overrides observe and never alter: on every input
    [MonitoringTracker.record_fleet_state] gives its caller the outcome of
    the base [record_fleet_state] and [Moe.remember_node] the outcome of
    the base [remember_node] (a returned value or a raised exception
    alike); the objects are left as the base call left them, and the only
    thing added is what is appended to the published messages. *)
Theorem overrides_return_what_the_base_returns :
  (forall args w,
      let base := lift (base_record_fleet_state T args) w in
      let override := MonitoringTracker.record_fleet_state T args w in
      fst override = fst base /\
      self (snd override) = self (snd base) /\
      exists published,
        hey_joe_sent (snd override) = hey_joe_sent (snd base) ++ published) /\
  (forall args w,
      let base := base_remember_node C args w in
      let override := Moe.remember_node T C args w in
      fst override = fst base /\
      self (snd override) = self (snd base) /\
      exists published,
        hey_joe_sent (snd override) = hey_joe_sent (snd base) ++ published).
Proof.
  split; intros args w; cbv zeta.
  - rewrite record_fleet_state_unfold. unfold lift. cbv zeta.
    destruct (base_record_fleet_state T args (self w)) as [r st]. simpl.
    repeat split. eexists. reflexivity.
  - rewrite remember_node_unfold. cbv zeta. simpl.
    repeat split. eexists. reflexivity.
Qed.

(** C1.  On every call of [MonitoringTracker.record_fleet_state] a
    "states" message is published exactly when the base call returns a new
    (checksum, state) pair, and it maps that checksum to the abridged
    details of that state; when the base returns nothing (or raises)
    nothing is published.  Over a whole session, whatever changes of the
    objects come between the calls, the messages published, which are the
    ones a subscriber of "states" is delivered, are one per checksum
    transition of the base tracker, in order, and none for the calls
    that found nothing new. *)
Theorem states_message_per_checksum_transition :
  (forall args w,
      let base := base_record_fleet_state T args (self w) in
      let override := MonitoringTracker.record_fleet_state T args w in
      hey_joe_sent (snd override) =
        hey_joe_sent w ++ MonitoringTracker.states_message T base /\
      ((exists checksum new_state,
           fst base = Return (Some (checksum, new_state)) /\
           MonitoringTracker.states_message T base =
             [(JObj [(checksum, abridged_state_details T (snd base) new_state)],
               "states")]) \/
       ((fst base = Return None \/ exists e, fst base = Raise e) /\
        MonitoringTracker.states_message T base = []))) /\
  (forall steps w subscriber,
      let published := History.transitions T steps (self w) in
      hey_joe_sent (snd (History.run T steps w)) = hey_joe_sent w ++ published /\
      Service.deliver "states" published subscriber =
        subscriber ++ List.map Service.wire published).
Proof.
  split.
  - intros args w. cbv zeta. rewrite record_fleet_state_unfold. cbv zeta. simpl.
    split; [reflexivity|].
    destruct (base_record_fleet_state T args (self w)) as [[[[c s]|]|e] st]; simpl.
    + left. exists c, s. split; reflexivity.
    + right. split; [left|]; reflexivity.
    + right. split; [right; exists e|]; reflexivity.
  - intros steps w subscriber. cbv zeta. split.
    + apply run_publishes_transitions.
    + now rewrite deliver_appends, transitions_on_states.
Qed.

(** C2.  Idempotence of the "nodes" notification.  Let the base
    [remember_node] return the record [r] on the first call and nothing on
    the repeated one.  Then the first [Moe.remember_node] returns [r] and
    publishes, after what the base call left, one "nodes" message keyed by
    the checksum public address of [r]; the second returns nothing and
    publishes nothing, leaving the world as the base call left it.  So,
    when the base calls themselves publish nothing on "nodes", that feed
    has grown over both calls by the one message. *)
Theorem remember_node_twice_publishes_once args r w w1 w2 :
  base_remember_node C args w = (Return (Some r), w1) ->
  base_remember_node C args (snd (Moe.remember_node T C args w)) = (Return None, w2) ->
  Moe.remember_node T C args w =
    (Return (Some r),
     mkWorld (self w1)
       (hey_joe_sent w1 ++
        [(JObj [(checksum_public_address C (self w1) r,
                 abridged_node_details T (self w1) r)], "nodes")])) /\
  Moe.remember_node T C args (snd (Moe.remember_node T C args w)) = (Return None, w2) /\
  (on_topic "nodes" (hey_joe_sent w1) = on_topic "nodes" (hey_joe_sent w) ->
   on_topic "nodes" (hey_joe_sent w2) =
     on_topic "nodes" (hey_joe_sent (snd (Moe.remember_node T C args w))) ->
   on_topic "nodes" (hey_joe_sent w2) =
     on_topic "nodes" (hey_joe_sent w) ++ [Moe.node_event T C (self w1) r]).
Proof.
  intros H1 H2.
  assert (E1 : Moe.remember_node T C args w =
               (Return (Some r),
                mkWorld (self w1) (hey_joe_sent w1 ++ [Moe.node_event T C (self w1) r]))).
  { rewrite remember_node_unfold, H1. reflexivity. }
  split; [exact E1|]. split.
  - rewrite remember_node_unfold, H2. cbv zeta. simpl.
    rewrite app_nil_r. now destruct w2.
  - intros Hn1 Hn2. rewrite Hn2, E1. simpl. rewrite on_topic_app, Hn1. reflexivity.
Qed.

Lemma learn_from_teacher_node_unfold args w :
  Moe.learn_from_teacher_node T C args w =
    match current_teacher_node C false (self w) with
    | (Raise e, st1) => (Raise e, mkWorld st1 (hey_joe_sent w))
    | (Return teacher, st1) =>
        match base_learn_from_teacher_node C (Moe.remember_node T C) args
                (mkWorld st1 (hey_joe_sent w)) with
        | (Raise e, w2) => (Raise e, w2)
        | (Return new_nodes, w2) =>
            match teacher with
            | None => (Raise (AttributeError "checksum_public_address"), w2)
            | Some t =>
                let announced := hey_joe_sent w2 ++ [Moe.node_event T C (self w2) t] in
                match current_teacher_node C false (self w2) with
                | (Raise e, st3) => (Raise e, mkWorld st3 announced)
                | (Return None, st3) =>
                    (Raise (AttributeError "checksum_public_address"),
                     mkWorld st3 announced)
                | (Return (Some t'), st3) =>
                    (Return new_nodes,
                     mkWorld st3 (announced ++ [Moe.teacher_event C st3 t']))
                end
            end
        end
    end.
Proof.
  unfold Moe.learn_from_teacher_node, Moe.node_payload,
    Moe.getattr_checksum_public_address, Moe.node_event, Moe.teacher_event.
  py_unfold.
  destruct (current_teacher_node C false (self w)) as [[teacher|e] st1]; [|reflexivity].
  destruct (base_learn_from_teacher_node C (Moe.remember_node T C) args
              (mkWorld st1 (hey_joe_sent w))) as [[new_nodes|e] w2]; [|reflexivity].
  destruct teacher as [t|]; [|reflexivity]. simpl.
  destruct (current_teacher_node C false (self w2)) as [[[t'|]|e] st3]; reflexivity.
Qed.

(** C3.  The order of a learning round.  When the teacher query answers
    with a teacher [t] before the base learning call and with [t'] after
    it, and the base call, which is handed the overridden [remember_node]
    and so publishes the "nodes" messages of the nodes it remembers,
    returns [new_nodes], then the round publishes, after everything
    published during the base call and in this order, one "nodes" message
    with the abridged details of [t] and one "teachers" message with the
    identity of [t']; it returns [new_nodes]. *)
Theorem learning_round_publishes_in_order args w t st1 new_nodes w2 t' st3 :
  current_teacher_node C false (self w) = (Return (Some t), st1) ->
  base_learn_from_teacher_node C (Moe.remember_node T C) args
    (mkWorld st1 (hey_joe_sent w)) = (Return new_nodes, w2) ->
  current_teacher_node C false (self w2) = (Return (Some t'), st3) ->
  Moe.learn_from_teacher_node T C args w =
    (Return new_nodes,
     mkWorld st3
       (hey_joe_sent w2 ++
        [(JObj [(checksum_public_address C (self w2) t,
                 abridged_node_details T (self w2) t)], "nodes");
         (JObj [("current_teacher", JStr (checksum_public_address C st3 t'))],
          "teachers")])).
Proof.
  intros H1 H2 H3. rewrite learn_from_teacher_node_unfold, H1, H2. cbv zeta.
  rewrite H3. unfold Moe.node_event, Moe.teacher_event.
  now rewrite <- app_assoc.
Qed.

(** C4.  Every round re-announces the teacher.  Whatever the base learning
    call returns, be it no node at all, new nodes without the teacher or
    with it, the "nodes" message with the abridged details of the teacher
    the round started with is the first thing published after the base
    call. *)
Theorem teacher_is_announced_every_round args w t st1 new_nodes w2 :
  current_teacher_node C false (self w) = (Return (Some t), st1) ->
  base_learn_from_teacher_node C (Moe.remember_node T C) args
    (mkWorld st1 (hey_joe_sent w)) = (Return new_nodes, w2) ->
  exists rest,
    hey_joe_sent (snd (Moe.learn_from_teacher_node T C args w)) =
      hey_joe_sent w2 ++
      (JObj [(checksum_public_address C (self w2) t,
              abridged_node_details T (self w2) t)], "nodes") :: rest.
Proof.
  intros H1 H2. rewrite learn_from_teacher_node_unfold, H1, H2. cbv zeta.
  unfold Moe.node_event, Moe.teacher_event.
  destruct (current_teacher_node C false (self w2)) as [[[t'|]|e] st3]; simpl.
  - eexists. rewrite <- app_assoc. reflexivity.
  - exists []. reflexivity.
  - exists []. reflexivity.
Qed.

(** C7.  The teacher is asked for without a forced advance.  Let [pointer]
    be the current-teacher pointer, which a query with cycle=False returns
    and leaves alone when it is set.  Then the "teachers" message of a
    round carries the identity of the teacher the pointer names after the
    base learning call; this is the teacher the round started with unless
    the base call moved the pointer; and the round never uses what
    [current_teacher_node] does with cycle=True: any other method that
    agrees with it on cycle=False gives the same round. *)
Theorem teachers_message_names_teacher_after_round
    (pointer : St -> option Node) args w t new_nodes w2 t' :
  (forall st n, pointer st = Some n ->
                current_teacher_node C false st = (Return (Some n), st)) ->
  pointer (self w) = Some t ->
  base_learn_from_teacher_node C (Moe.remember_node T C) args w = (Return new_nodes, w2) ->
  pointer (self w2) = Some t' ->
  Moe.learn_from_teacher_node T C args w =
    (Return new_nodes,
     mkWorld (self w2)
       (hey_joe_sent w2 ++
        [Moe.node_event T C (self w2) t;
         (JObj [("current_teacher", JStr (checksum_public_address C (self w2) t'))],
          "teachers")])) /\
  (pointer (self w2) = pointer (self w) -> t' = t) /\
  (forall query,
      (forall st, query false st = current_teacher_node C false st) ->
      Moe.learn_from_teacher_node T (with_current_teacher_node query C) args w =
        Moe.learn_from_teacher_node T C args w).
Proof.
  intros Hq Ht Hb Ht'. split; [|split].
  - rewrite learn_from_teacher_node_unfold, (Hq _ _ Ht).
    destruct w as [st out]. simpl in *. rewrite Hb. cbv zeta.
    rewrite (Hq _ _ Ht'). unfold Moe.teacher_event. now rewrite <- app_assoc.
  - intros E. rewrite Ht, Ht' in E. now inversion E.
  - intros query Hagree.
    unfold Moe.learn_from_teacher_node, Moe.node_payload,
      Moe.getattr_checksum_public_address.
    change (Moe.remember_node T (with_current_teacher_node query C))
      with (Moe.remember_node T C).
    unfold with_current_teacher_node, bind, lift. simpl.
    rewrite Hagree.
    destruct (current_teacher_node C false (self w)) as [[teacher|e] st1]; [|reflexivity].
    destruct (base_learn_from_teacher_node C (Moe.remember_node T C) args
                (mkWorld st1 (hey_joe_sent w))) as [[nodes|e] w3]; [|reflexivity].
    destruct teacher as [t0|]; [|reflexivity]. py_unfold.
    rewrite Hagree. reflexivity.
Qed.

(** C9.  A round needs a teacher.  When the query with cycle=False yields
    no teacher, the round does not complete: the base learning call still
    runs, and if it returns, building the teacher's re-announcement raises
    the attribute error of the absent teacher (an exception of the base
    call goes through as it is); nothing is published after the base
    call. *)
Theorem round_without_teacher_fails args w st1 :
  current_teacher_node C false (self w) = (Return None, st1) ->
  let base :=
    base_learn_from_teacher_node C (Moe.remember_node T C) args
      (mkWorld st1 (hey_joe_sent w)) in
  Moe.learn_from_teacher_node T C args w =
    (match fst base with
     | Return _ => Raise (AttributeError "checksum_public_address")
     | Raise e => Raise e
     end, snd base).
Proof.
  intros H. cbv zeta. rewrite learn_from_teacher_node_unfold, H.
  destruct (base_learn_from_teacher_node C (Moe.remember_node T C) args
              (mkWorld st1 (hey_joe_sent w))) as [[nodes|e] w2]; reflexivity.
Qed.

(** C10.  Late-join snapshots exist for "states" and "nodes" only.  The
    service [moe] sets up has a follow-up handler under exactly these two
    topics, [send_states] and [send_nodes]: a subscriber joining "states"
    is sent the one message [["states", abridged_states_dict()]], one
    joining "nodes" the one message [["nodes", abridged_nodes_dict()]],
    both read off the monitor as it is then.  Under "teachers" there is no
    handler, so a subscriber joining "teachers" is sent nothing on joining
    and from then on the "teachers" messages as they are published. *)
Theorem followups_cover_states_and_nodes_only ws_port :
  let service := Service.websocket_service T ws_port in
  dom (Service.followups service) = {[ "states"; "nodes" ]} /\
  Service.followups service !! "states" = Some (Service.send_states T) /\
  Service.followups service !! "nodes" = Some (Service.send_nodes T) /\
  Service.followups service !! "teachers" = None /\
  (forall monitor published subscriber,
      Service.late_join service "states" monitor subscriber =
        subscriber ++ [JArr [JStr "states"; abridged_states_dict T monitor]] /\
      Service.late_join service "nodes" monitor subscriber =
        subscriber ++ [JArr [JStr "nodes"; abridged_nodes_dict T monitor]] /\
      Service.late_join service "teachers" monitor subscriber = subscriber /\
      Service.deliver "teachers" published
        (Service.late_join service "teachers" monitor subscriber) =
        subscriber ++ List.map Service.wire (on_topic "teachers" published)).
Proof.
  cbv zeta.
  assert (Ht : Service.followups (Service.websocket_service T ws_port) !! "teachers"
               = None).
  { cbn [Service.websocket_service Service.register_followup
           Service.new_WebSocketService Service.followups].
    rewrite !lookup_insert_ne by discriminate. apply lookup_empty. }
  assert (Hs : Service.followups (Service.websocket_service T ws_port) !! "states"
               = Some (Service.send_states T)).
  { cbn [Service.websocket_service Service.register_followup
           Service.new_WebSocketService Service.followups].
    rewrite lookup_insert_ne by discriminate. apply lookup_insert_eq. }
  assert (Hn : Service.followups (Service.websocket_service T ws_port) !! "nodes"
               = Some (Service.send_nodes T)).
  { cbn [Service.websocket_service Service.register_followup
           Service.new_WebSocketService Service.followups].
    apply lookup_insert_eq. }
  split; [|split; [exact Hs|split; [exact Hn|split; [exact Ht|]]]].
  - cbn [Service.websocket_service Service.register_followup
           Service.new_WebSocketService Service.followups].
    rewrite !dom_insert_L, dom_empty_L. set_solver.
  - intros monitor published subscriber. unfold Service.late_join.
    rewrite Ht, Hs, Hn. repeat split. apply deliver_appends.
Qed.

(** C5, as the code has it.  Let the base serializers give detail objects
    for a node and for a state, and mappings to detail objects for the two
    snapshots of [monitor].  Then everything sent to a client is a
    two-element [[topic, payload]] array with one of the three topics: the
    late-join snapshots and the "states" and "nodes" messages carry a
    mapping from a checksum or a node identity to a detail object; a
    "teachers" message carries the mapping from the one key
    "current_teacher" to the teacher's address, a string, which is not a
    mapping to detail objects. *)
Theorem feed_keeps_contract monitor subscriber :
  (forall st s, is_object (abridged_state_details T st s) = true) ->
  (forall st n, is_object (abridged_node_details T st n) = true) ->
  Feed.is_detail_mapping (abridged_states_dict T monitor) = true ->
  Feed.is_detail_mapping (abridged_nodes_dict T monitor) = true ->
  (exists payload,
      Service.send_states T monitor subscriber =
        subscriber ++ [JArr [JStr "states"; payload]] /\
      Feed.wire_contract (JArr [JStr "states"; payload]) = true) /\
  (exists payload,
      Service.send_nodes T monitor subscriber =
        subscriber ++ [JArr [JStr "nodes"; payload]] /\
      Feed.wire_contract (JArr [JStr "nodes"; payload]) = true) /\
  (forall args w,
      exists published,
        hey_joe_sent (snd (MonitoringTracker.record_fleet_state T args w)) =
          hey_joe_sent w ++ published /\
        Feed.all_keep Feed.wire_contract published = true) /\
  (forall args w,
      exists published,
        hey_joe_sent (snd (Moe.remember_node T C args w)) =
          hey_joe_sent (snd (base_remember_node C args w)) ++ published /\
        Feed.all_keep Feed.wire_contract published = true) /\
  (forall args w,
      let after_base :=
        match current_teacher_node C false (self w) with
        | (Return _, st1) =>
            hey_joe_sent (snd (base_learn_from_teacher_node C (Moe.remember_node T C)
                                 args (mkWorld st1 (hey_joe_sent w))))
        | (Raise _, _) => hey_joe_sent w
        end in
      exists published,
        hey_joe_sent (snd (Moe.learn_from_teacher_node T C args w)) =
          after_base ++ published /\
        Feed.all_keep Feed.feed_contract published = true) /\
  (forall st n,
      Feed.feed_contract (Service.wire (Moe.teacher_event C st n)) = true /\
      Feed.is_detail_mapping (fst (Moe.teacher_event C st n)) = false).
Proof.
  intros Hs Hn Hsd Hnd.
  assert (Hnode : forall st n,
             Feed.wire_contract (Service.wire (Moe.node_event T C st n)) = true).
  { intros st n. simpl. now rewrite Hn. }
  assert (Hnode' : forall st n,
             Feed.feed_contract (Service.wire (Moe.node_event T C st n)) = true).
  { intros st n. simpl. now rewrite Hn. }
  repeat split.
  - eexists. split; [reflexivity|]. simpl. now rewrite Hsd.
  - eexists. split; [reflexivity|]. simpl. now rewrite Hnd.
  - intros args w. rewrite record_fleet_state_unfold. cbv zeta. simpl.
    eexists. split; [reflexivity|].
    destruct (base_record_fleet_state T args (self w)) as [[[[c s]|]|e] st];
      simpl; rewrite ?Hs; reflexivity.
  - intros args w. rewrite remember_node_unfold. cbv zeta. simpl.
    eexists. split; [reflexivity|].
    destruct (base_remember_node C args w) as [[[n|]|e] w1];
      simpl; rewrite ?Hn; reflexivity.
  - intros args w. cbv zeta. rewrite learn_from_teacher_node_unfold.
    destruct (current_teacher_node C false (self w)) as [[teacher|e] st1];
      [|exists []; simpl; now rewrite app_nil_r].
    destruct (base_learn_from_teacher_node C (Moe.remember_node T C) args
                (mkWorld st1 (hey_joe_sent w))) as [[nodes|e] w2];
      [|exists []; simpl; now rewrite app_nil_r].
    destruct teacher as [t|]; [|exists []; simpl; now rewrite app_nil_r].
    cbv zeta.
    destruct (current_teacher_node C false (self w2)) as [[[t'|]|e] st3]; simpl.
    + exists [Moe.node_event T C (self w2) t; Moe.teacher_event C st3 t'].
      split; [now rewrite <- app_assoc|].
      unfold Feed.all_keep. cbn [forallb]. rewrite Hnode'. reflexivity.
    + exists [Moe.node_event T C (self w2) t]. split; [reflexivity|].
      unfold Feed.all_keep. cbn [forallb]. rewrite Hnode'. reflexivity.
    + exists [Moe.node_event T C (self w2) t]. split; [reflexivity|].
      unfold Feed.all_keep. cbn [forallb]. rewrite Hnode'. reflexivity.
Qed.
End Overrides.

(** ** The overrides over the base classes of the specification *)

Section OnTheFleet.
Variable digest : list (string * nat) -> string.
Variable delays : Fleet.Delays.

Let T := Fleet.tracker digest.
Let C := Fleet.character digest delays.

(** The base tracker deduplicates: it returns nothing exactly when the
    checksum of the members is the one recorded before, and so it does
    when called again with no change in between. *)
Lemma fleet_record_fleet_state_dedup st :
  (fst (Fleet.record_fleet_state digest tt st) = Return None <->
   Fleet.checksum <$> Fleet.recorded st =
     Some (Fleet.checksum_of digest (Fleet.known_nodes st))) /\
  fst (Fleet.record_fleet_state digest tt
         (snd (Fleet.record_fleet_state digest tt st))) = Return None.
Proof.
  assert (A : forall st',
             Fleet.checksum <$> Fleet.recorded st' =
               Some (Fleet.checksum_of digest (Fleet.known_nodes st')) ->
             Fleet.record_fleet_state digest tt st' = (Return None, st')).
  { intros st' E. unfold Fleet.record_fleet_state.
    now rewrite bool_decide_eq_true_2. }
  split.
  - split; [|intros E; now rewrite A].
    unfold Fleet.record_fleet_state.
    destruct (bool_decide _) eqn:E; [|discriminate].
    intros _. now apply bool_decide_eq_true in E.
  - rewrite A; [reflexivity|].
    unfold Fleet.record_fleet_state.
    destruct (bool_decide _) eqn:E; [|reflexivity].
    now apply bool_decide_eq_true in E.
Qed.

Lemma fleet_remember_node r w :
  exists st' states,
    Moe.remember_node T C r w =
      (Return (match Fleet.known_nodes (self w) !! Fleet.identity r with
               | None => Some r
               | Some _ => None
               end),
       mkWorld st'
         (hey_joe_sent w ++ states ++
          match Fleet.known_nodes (self w) !! Fleet.identity r with
          | None => [Fleet.announcement r]
          | Some _ => []
          end)) /\
    on_topic "nodes" states = [].
Proof.
  rewrite remember_node_unfold. cbv zeta.
  change (base_remember_node C r w)
    with (Fleet.remember_node (MonitoringTracker.record_fleet_state T) r w).
  unfold Fleet.remember_node, bind, read, modify, ret. cbn [self hey_joe_sent].
  rewrite record_fleet_state_unfold. cbv zeta. cbn [self hey_joe_sent fst snd].
  change (base_record_fleet_state T tt) with (Fleet.record_fleet_state digest tt).
  unfold Fleet.record_fleet_state.
  set (c := Fleet.checksum_of digest _).
  set (s := Fleet.mkFleetState c _ _).
  case_bool_decide as E;
    match goal with
    | |- context [mkWorld ?st ?out] => set (w' := mkWorld st out)
    end;
    cbn [fst snd self hey_joe_sent MonitoringTracker.states_message
           Moe.nodes_message].
  - exists (self w'), []. split; [|reflexivity].
    destruct (Fleet.known_nodes (self w) !! Fleet.identity r); cbn; rewrite ?app_nil_r;
      [reflexivity|].
    unfold Moe.node_event, Fleet.announcement. cbn.
    unfold Fleet.abridged_node_details. cbn.
    now rewrite lookup_insert_eq.
  - exists (self w'), [MonitoringTracker.state_event T (self w') c s].
    split; [|reflexivity].
    destruct (Fleet.known_nodes (self w) !! Fleet.identity r); cbn; rewrite ?app_nil_r;
      [reflexivity|].
    unfold Moe.node_event, Fleet.announcement. cbn.
    unfold Fleet.abridged_node_details. cbn.
    rewrite lookup_insert_eq. cbn. now rewrite <- app_assoc.
Qed.

Lemma fleet_merge peers w :
  exists new_nodes w',
    Fleet.merge (Moe.remember_node T C) peers w = (Return new_nodes, w') /\
    on_topic "nodes" (hey_joe_sent w') =
      on_topic "nodes" (hey_joe_sent w) ++ List.map Fleet.announcement new_nodes.
Proof.
  revert w. induction peers as [|p rest IH]; intros w.
  - exists [], w. split; [reflexivity|]. simpl. now rewrite app_nil_r.
  - cbn [Fleet.merge]. unfold bind.
    destruct (fleet_remember_node p w) as (st' & states & E & Hs). rewrite E.
    match goal with
    | |- context [Fleet.merge _ rest ?w1] => destruct (IH w1) as (news & w' & E' & Hn)
    end.
    rewrite E'. cbn [hey_joe_sent] in Hn.
    rewrite !on_topic_app, Hs in Hn. cbn [app] in Hn.
    destruct (Fleet.known_nodes (self w) !! Fleet.identity p).
    + exists news, w'. split; [reflexivity|].
      rewrite Hn. cbn. now rewrite app_nil_r.
    + exists (p :: news), w'. split; [reflexivity|].
      rewrite Hn. cbn. now rewrite <- app_assoc.
Qed.

(** The base learning call of the specification, handed the overridden
    [remember_node], returns the nodes it newly learned and publishes on
    "nodes" one announcement for each of them, in the order learned, and
    nothing else. *)
Theorem fleet_learning_announces_each_new_node args w :
  exists new_nodes w2,
    base_learn_from_teacher_node C (Moe.remember_node T C) args w =
      (Return new_nodes, w2) /\
    on_topic "nodes" (hey_joe_sent w2) =
      on_topic "nodes" (hey_joe_sent w) ++ List.map Fleet.announcement new_nodes.
Proof.
  change (base_learn_from_teacher_node C (Moe.remember_node T C) args w)
    with (Fleet.learn_from_teacher_node delays (Moe.remember_node T C) args w).
  unfold Fleet.learn_from_teacher_node, bind, read, modify, ret.
  cbn [self hey_joe_sent].
  match goal with
  | |- context [Fleet.merge _ ?peers ?w1] =>
      destruct (fleet_merge peers w1) as (news & w' & E & Hn)
  end.
  rewrite E. exists news. eexists. split; [reflexivity|]. exact Hn.
Qed.
End OnTheFleet.

(** ** The back-off of the learning loop *)

Lemma after_timeouts d n l :
  Fleet.after_rounds d (repeat Fleet.TimedOut n) l =
    match n with
    | 0 => l
    | S _ =>
        Fleet.mkLoop
          (if Nat.leb (Fleet.slow_down_after d) (Fleet.empty_rounds l + n)
           then Fleet.long_delay d else Fleet.interval l)
          (Fleet.empty_rounds l + n)
    end.
Proof.
  revert l. induction n as [|n IH]; intros l; [reflexivity|].
  change (Fleet.after_rounds d (repeat Fleet.TimedOut (S n)) l)
    with (Fleet.after_rounds d (repeat Fleet.TimedOut n) (Fleet.adjust_learning d [] l)).
  rewrite IH. destruct n as [|n].
  - simpl. now rewrite Nat.add_1_r.
  - cbn [Fleet.adjust_learning Fleet.empty_rounds Fleet.interval].
    replace (S (Fleet.empty_rounds l) + S n) with (Fleet.empty_rounds l + S (S n)) by lia.
    f_equal.
    destruct (Nat.leb_spec (Fleet.slow_down_after d) (Fleet.empty_rounds l + S (S n)));
      [reflexivity|].
    destruct (Nat.leb_spec (Fleet.slow_down_after d) (S (Fleet.empty_rounds l)));
      [lia|reflexivity].
Qed.

Lemma after_rounds_app d r1 r2 l :
  Fleet.after_rounds d (r1 ++ r2) l = Fleet.after_rounds d r2 (Fleet.after_rounds d r1 l).
Proof. unfold Fleet.after_rounds. apply fold_left_app. Qed.

(** The scenario of section 8 holds for a loop configured to slow down after
    3 empty rounds: three timeouts in a row bring the slow interval, a fourth
    round with two new nodes brings back the fast one. *)
Example scenario_4_with_threshold_3 :
  let d := Fleet.mkDelays Moe._SHORT_LEARNING_DELAY Moe._LONG_LEARNING_DELAY 3 in
  let timeouts := [Fleet.TimedOut; Fleet.TimedOut; Fleet.TimedOut] in
  Fleet.interval (Fleet.after_rounds d timeouts (Fleet.start d)) = Moe._LONG_LEARNING_DELAY /\
  Fleet.interval
    (Fleet.after_rounds d (timeouts ++ [Fleet.Learned [Scenario.bob; Scenario.carol]])
       (Fleet.start d)) = Moe._SHORT_LEARNING_DELAY.
Proof. split; reflexivity. Qed.

(** C6, as stated, fails for [Moe]: after three timeouts in a row the
    interval is still the short one, which is not the long one. *)
Lemma three_timeouts_leave_moe_fast :
  Fleet.interval
    (Fleet.after_rounds Fleet.moe_delays
       [Fleet.TimedOut; Fleet.TimedOut; Fleet.TimedOut]
       (Fleet.start Fleet.moe_delays)) = Moe._SHORT_LEARNING_DELAY /\
  ~ Qeq Moe._SHORT_LEARNING_DELAY Moe._LONG_LEARNING_DELAY.
Proof. split; [reflexivity|]. unfold Qeq. simpl. lia. Qed.

(** C6, as the code has it.  [Moe] fixes the short interval at 0.5, the long
    one at 30, the round timeout at 10 and the number of empty rounds after
    which to slow down at 25.  With these the loop starts at the short
    interval; after [n] timeouts in a row it is at the short interval while
    [n] is below 25 and at the long one from the 25th on; a following
    round that brings new nodes resets it to the short interval. *)
Theorem moe_slows_down_after_25_empty_rounds :
  (Moe._SHORT_LEARNING_DELAY = (1 # 2)%Q /\
   Moe._LONG_LEARNING_DELAY = (30 # 1)%Q /\
   Moe.LEARNING_TIMEOUT = (10 # 1)%Q /\
   Moe._ROUNDS_WITHOUT_NODES_AFTER_WHICH_TO_SLOW_DOWN = 25) /\
  Fleet.interval (Fleet.start Fleet.moe_delays) = Moe._SHORT_LEARNING_DELAY /\
  (forall n,
      Fleet.interval
        (Fleet.after_rounds Fleet.moe_delays (repeat Fleet.TimedOut n)
           (Fleet.start Fleet.moe_delays)) =
        if Nat.ltb n 25 then Moe._SHORT_LEARNING_DELAY else Moe._LONG_LEARNING_DELAY) /\
  (forall n node others,
      Fleet.interval
        (Fleet.after_rounds Fleet.moe_delays
           (repeat Fleet.TimedOut n ++ [Fleet.Learned (node :: others)])
           (Fleet.start Fleet.moe_delays)) = Moe._SHORT_LEARNING_DELAY).
Proof.
  split; [repeat split|]. split; [reflexivity|]. split.
  - intros n. rewrite after_timeouts. destruct n as [|n]; [reflexivity|].
    cbn [Fleet.interval Fleet.start Fleet.moe_delays Fleet.empty_rounds
           Fleet.slow_down_after Fleet.long_delay Fleet.short_delay].
    unfold Moe._ROUNDS_WITHOUT_NODES_AFTER_WHICH_TO_SLOW_DOWN.
    destruct (Nat.leb_spec 25 (0 + S n)); destruct (Nat.ltb_spec (S n) 25);
      try reflexivity; lia.
  - intros n node others. rewrite after_rounds_app. reflexivity.
Qed.

(** ** The overrides on the fleet of [Scenario] *)

(** Discharges the premises of [H] one after the other by running the
    definitions. *)
Ltac by_running H :=
  repeat match type of H with
         | ?P -> _ =>
             let X := fresh in
             assert (X : P) by (intros; vm_compute; reflexivity);
             specialize (H X); clear X
         end.

(** C2 on the seeded monitor: [bob] remembered twice is announced once. *)
Lemma remember_node_twice_publishes_once_witness :
  on_topic "nodes"
    (hey_joe_sent
       (snd (Moe.remember_node Scenario.tracker Scenario.character Scenario.bob
               (snd (Moe.remember_node Scenario.tracker Scenario.character Scenario.bob
                       Scenario.world))))) =
    [(JObj [("0xB", Fleet.node_details Scenario.bob)], "nodes")].
Proof.
  pose proof (remember_node_twice_publishes_once
                Scenario.tracker Scenario.character Scenario.bob Scenario.bob
                Scenario.world
                (snd (base_remember_node Scenario.character Scenario.bob Scenario.world))
                (snd (base_remember_node Scenario.character Scenario.bob
                        (snd (Moe.remember_node Scenario.tracker Scenario.character
                                Scenario.bob Scenario.world))))) as H.
  by_running H. destruct H as [_ [E H]]. by_running H.
  rewrite E. cbn [snd]. rewrite H. vm_compute. reflexivity.
Defined.

(** C3 on the seeded monitor: the first round learns [bob] from [ursula];
    the messages of the base call come first, then [ursula] is announced,
    then [bob] is named as the teacher. *)
Lemma learning_round_publishes_in_order_witness :
  fst (Moe.learn_from_teacher_node Scenario.tracker Scenario.character tt Scenario.world)
    = Return [Scenario.bob] /\
  List.map snd
    (hey_joe_sent
       (snd (Moe.learn_from_teacher_node Scenario.tracker Scenario.character tt
               Scenario.world)))
    = ["states"; "states"; "nodes"; "nodes"; "teachers"] /\
  List.map fst
    (on_topic "nodes"
       (hey_joe_sent
          (snd (Moe.learn_from_teacher_node Scenario.tracker Scenario.character tt
                  Scenario.world))))
    = [JObj [("0xB", Fleet.node_details Scenario.bob)];
       JObj [("0xA", Fleet.node_details Scenario.ursula)]].
Proof.
  pose proof (learning_round_publishes_in_order
                Scenario.tracker Scenario.character tt Scenario.world
                Scenario.ursula Scenario.monitor [Scenario.bob]
                (snd (base_learn_from_teacher_node Scenario.character
                        (Moe.remember_node Scenario.tracker Scenario.character) tt
                        Scenario.world))
                Scenario.bob
                (self (snd (base_learn_from_teacher_node Scenario.character
                              (Moe.remember_node Scenario.tracker Scenario.character) tt
                              Scenario.world)))) as H.
  by_running H. rewrite H.
  repeat split; vm_compute; reflexivity.
Defined.

(** C4 on a round that learns nothing: the network lets the round time out,
    and [ursula], known from the start, is announced all the same. *)
Lemma teacher_is_announced_every_round_witness :
  exists rest,
    hey_joe_sent
      (snd (Moe.learn_from_teacher_node Scenario.tracker Scenario.character tt
              Scenario.quiet)) =
      (JObj [("0xA", Fleet.node_details Scenario.ursula)], "nodes") :: rest.
Proof.
  pose proof (teacher_is_announced_every_round
                Scenario.tracker Scenario.character tt Scenario.quiet
                Scenario.ursula (self Scenario.quiet) []
                (snd (base_learn_from_teacher_node Scenario.character
                        (Moe.remember_node Scenario.tracker Scenario.character) tt
                        Scenario.quiet))) as H.
  by_running H. destruct H as [rest E].
  exists rest. rewrite E. reflexivity.
Defined.

(** C7 on the seeded monitor, whose pointer is the [teacher] field: the
    round starts with [ursula], the base call rotates to [bob], and [bob] is
    the teacher the "teachers" message names. *)
Lemma teachers_message_names_teacher_after_round_witness :
  last (hey_joe_sent
          (snd (Moe.learn_from_teacher_node Scenario.tracker Scenario.character tt
                  Scenario.world)))
    = Some (JObj [("current_teacher", JStr "0xB")], "teachers").
Proof.
  pose proof (teachers_message_names_teacher_after_round
                Scenario.tracker Scenario.character Fleet.teacher tt Scenario.world
                Scenario.ursula [Scenario.bob]
                (snd (base_learn_from_teacher_node Scenario.character
                        (Moe.remember_node Scenario.tracker Scenario.character) tt
                        Scenario.world))
                Scenario.bob) as H.
  assert (Hq : forall st n, Fleet.teacher st = Some n ->
                 current_teacher_node Scenario.character false st = (Return (Some n), st)).
  { intros st n E. rewrite <- E. reflexivity. }
  specialize (H Hq). by_running H. destruct H as [E _].
  rewrite E. vm_compute. reflexivity.
Defined.

(** C9 on the monitor without a teacher: the round raises the attribute
    error, after the base call and with nothing announced. *)
Lemma round_without_teacher_fails_witness :
  fst (Moe.learn_from_teacher_node Scenario.tracker Scenario.character tt Scenario.orphan)
    = Raise (AttributeError "checksum_public_address") /\
  on_topic "teachers"
    (hey_joe_sent
       (snd (Moe.learn_from_teacher_node Scenario.tracker Scenario.character tt
               Scenario.orphan))) = [].
Proof.
  pose proof (round_without_teacher_fails Scenario.tracker Scenario.character tt
                Scenario.orphan (self Scenario.orphan)) as H.
  by_running H. cbv zeta in H. rewrite H.
  split; vm_compute; reflexivity.
Defined.

(** C5, as stated, fails on the "teachers" message of a round: its payload
    maps "current_teacher" to an address, and an address is no detail
    object. *)
Lemma teachers_message_breaks_wire_contract :
  last (hey_joe_sent
          (snd (Moe.learn_from_teacher_node Scenario.tracker Scenario.character tt
                  Scenario.world)))
    = Some (JObj [("current_teacher", JStr "0xB")], "teachers") /\
  Service.wire (JObj [("current_teacher", JStr "0xB")], "teachers")
    = JArr [JStr "teachers"; JObj [("current_teacher", JStr "0xB")]] /\
  Feed.wire_contract
    (Service.wire (JObj [("current_teacher", JStr "0xB")], "teachers")) = false.
Proof. repeat split; vm_compute; reflexivity. Qed.

(** C5, as the code has it, on the fleet of [Scenario]. *)
Lemma feed_keeps_contract_witness :
  Feed.all_keep Feed.feed_contract
    (hey_joe_sent
       (snd (Moe.learn_from_teacher_node Scenario.tracker Scenario.character tt
               Scenario.world))) = true /\
  Service.send_nodes Scenario.tracker Scenario.monitor [] =
    [JArr [JStr "nodes"; JObj [("0xA", Fleet.node_details Scenario.ursula)]]].
Proof.
  pose proof (feed_keeps_contract Scenario.tracker Scenario.character
                Scenario.monitor []) as H.
  by_running H. destruct H as (_ & _ & _ & _ & Hlearn & _).
  split.
  - destruct (Hlearn tt Scenario.world) as (published & Ep & Hp).
    rewrite Ep. unfold Feed.all_keep in *. rewrite forallb_app, Hp.
    vm_compute. reflexivity.
  - vm_compute. reflexivity.
Defined.


(** * More of the monitor *)

Section Rounds.
Context {St Node FleetState ArgsT ArgsR ArgsL : Type}.
Variable T : FleetStateTracker St Node FleetState ArgsT.
Variable C : Character St Node ArgsR ArgsL.

(** X1.  Whatever a learning round runs into, what [Moe.learn_from_teacher_node]
    itself publishes after the base call is nothing, or the teacher's
    "nodes" message, or that message followed by the "teachers" message,
    and it is the full pair exactly when the round returns: a round that
    raises has never named a teacher, and a round that returns has always
    announced and named one. *)
Theorem round_names_teacher_iff_it_returns args w :
  let after_base :=
    match current_teacher_node C false (self w) with
    | (Return _, st1) =>
        hey_joe_sent (snd (base_learn_from_teacher_node C (Moe.remember_node T C)
                             args (mkWorld st1 (hey_joe_sent w))))
    | (Raise _, _) => hey_joe_sent w
    end in
  let round := Moe.learn_from_teacher_node T C args w in
  exists published,
    hey_joe_sent (snd round) = after_base ++ published /\
    List.map snd published = firstn (length published) ["nodes"; "teachers"] /\
    ((exists new_nodes, fst round = Return new_nodes) <-> length published = 2).
Proof.
  cbv zeta. rewrite learn_from_teacher_node_unfold.
  destruct (current_teacher_node C false (self w)) as [[teacher|e] st1].
  - destruct (base_learn_from_teacher_node C (Moe.remember_node T C) args
                (mkWorld st1 (hey_joe_sent w))) as [[nodes|e] w2].
    + destruct teacher as [t|].
      * cbv zeta.
        destruct (current_teacher_node C false (self w2)) as [[[t'|]|e] st3]; simpl.
        -- exists [Moe.node_event T C (self w2) t; Moe.teacher_event C st3 t'].
           split; [now rewrite <- app_assoc|]. split; [reflexivity|].
           split; [reflexivity|]. intros _. now exists nodes.
        -- exists [Moe.node_event T C (self w2) t].
           split; [reflexivity|]. split; [reflexivity|].
           split; [intros [n H]; discriminate|discriminate].
        -- exists [Moe.node_event T C (self w2) t].
           split; [reflexivity|]. split; [reflexivity|].
           split; [intros [n H]; discriminate|discriminate].
      * exists []. simpl. rewrite app_nil_r. split; [reflexivity|]. split; [reflexivity|].
        split; [intros [n H]; discriminate|discriminate].
    + exists []. simpl. rewrite app_nil_r. split; [reflexivity|]. split; [reflexivity|].
      split; [intros [n H]; discriminate|discriminate].
  - exists []. simpl. rewrite app_nil_r. split; [reflexivity|]. split; [reflexivity|].
    split; [intros [n H]; discriminate|discriminate].
Qed.

(** X2.  A teacher lost during the round.  When the query answers with a
    teacher before the base learning call and with none after it, the round
    raises the attribute error of the absent teacher, and by then the
    "nodes" message of the first teacher is published: the feed has the
    announcement but no "teachers" message for the round. *)
Theorem teacher_lost_during_round args w t st1 new_nodes w2 st3 :
  current_teacher_node C false (self w) = (Return (Some t), st1) ->
  base_learn_from_teacher_node C (Moe.remember_node T C) args
    (mkWorld st1 (hey_joe_sent w)) = (Return new_nodes, w2) ->
  current_teacher_node C false (self w2) = (Return None, st3) ->
  Moe.learn_from_teacher_node T C args w =
    (Raise (AttributeError "checksum_public_address"),
     mkWorld st3
       (hey_joe_sent w2 ++
        [(JObj [(checksum_public_address C (self w2) t,
                 abridged_node_details T (self w2) t)], "nodes")])).
Proof.
  intros H1 H2 H3. rewrite learn_from_teacher_node_unfold, H1, H2. cbv zeta.
  now rewrite H3.
Qed.
End Rounds.

(** A round of the forgetful character: [bob] is learned and announced,
    [ursula] is announced, and the round fails without a "teachers"
    message. *)
Lemma teacher_lost_during_round_witness :
  fst (Moe.learn_from_teacher_node Scenario.tracker Cases.forgetful tt Scenario.world)
    = Raise (AttributeError "checksum_public_address") /\
  List.map snd
    (hey_joe_sent
       (snd (Moe.learn_from_teacher_node Scenario.tracker Cases.forgetful tt
               Scenario.world)))
    = ["states"; "states"; "nodes"; "nodes"].
Proof.
  pose proof (teacher_lost_during_round Scenario.tracker Cases.forgetful tt Scenario.world
                Scenario.ursula Scenario.monitor [Scenario.bob]
                (snd (base_learn_from_teacher_node Cases.forgetful
                        (Moe.remember_node Scenario.tracker Cases.forgetful) tt
                        Scenario.world))
                (self (snd (base_learn_from_teacher_node Cases.forgetful
                              (Moe.remember_node Scenario.tracker Cases.forgetful) tt
                              Scenario.world)))) as H.
  by_running H. rewrite H. split; vm_compute; reflexivity.
Defined.

(** * The deployment painters *)

Lemma pbind_emit {B} e (k : unit -> Painting.Paint B) :
  Painting.pbind (Painting.emit e) k = (e :: fst (k tt), snd (k tt)).
Proof. unfold Painting.pbind, Painting.emit. now destruct (k tt). Qed.

Lemma for_each_emits {A} (items : list A) body f :
  (forall x, body x = (f x, Painting.Ok tt)) ->
  Painting.for_each items body = (flat_map f items, Painting.Ok tt).
Proof.
  intros H. induction items as [|x rest IH]; [reflexivity|].
  cbn [Painting.for_each flat_map]. unfold Painting.pbind. now rewrite H, IH.
Qed.

Lemma countdown_descends delay :
  Painting.countdown delay =
    List.map (fun k => (delay - 1 - Z.of_nat k)%Z) (seq 0 (Z.to_nat delay)).
Proof.
  unfold Painting.countdown, seqZ.
  assert (R : forall n, rev (seq 0 n) = List.map (fun k => n - 1 - k) (seq 0 n)).
  { induction n as [|n IH]; [reflexivity|].
    rewrite seq_S at 1. rewrite rev_app_distr. cbn [rev app plus].
    cbn [seq List.map]. rewrite <- seq_shift, List.map_map, IH.
    f_equal; [lia|]. apply List.map_ext. intros k. lia. }
  change (fmap ?f ?l) with (List.map f l).
  rewrite <- List.map_rev, R, List.map_map.
  apply List.map_ext_in. intros k Hk. apply in_seq in Hk. lia.
Qed.

(** X3.  The countdown before a deployment.  For every [delay] the painter
    returns, and what it does is exactly this: the heading in red, then,
    for each number from [delay - 1] down to [0], the number echoed in
    yellow followed by a sleep of one second.  So it sleeps [delay] seconds
    in all, and a delay of zero or less (the opposite of a natural number)
    gives the heading alone and no sleep. *)
Theorem deployment_delay_counts_down_to_zero delay :
  Painting.paint_deployment_delay delay =
    (Painting.Echo
       (Painting.Text ("Starting deployment in " +:+ pretty delay +:+ " seconds..."))
       (Some "red") None None
     :: flat_map
          (fun k =>
             [Painting.Echo
                (Painting.Text (pretty (delay - 1 - Z.of_nat k)%Z +:+ "..."))
                (Some "yellow") None None;
              Painting.Sleep 1])
          (seq 0 (Z.to_nat delay)),
     Painting.Ok tt) /\
  Painting.slept (fst (Painting.paint_deployment_delay delay)) = Z.max 0 delay /\
  (forall n : nat,
      fst (Painting.paint_deployment_delay (- Z.of_nat n)) =
        [Painting.Echo
           (Painting.Text
              ("Starting deployment in " +:+ pretty (- Z.of_nat n)%Z +:+ " seconds..."))
           (Some "red") None None]).
Proof.
  assert (E : Painting.paint_deployment_delay delay =
              (Painting.Echo
                 (Painting.Text
                    ("Starting deployment in " +:+ pretty delay +:+ " seconds..."))
                 (Some "red") None None
               :: flat_map
                    (fun k =>
                       [Painting.Echo
                          (Painting.Text (pretty (delay - 1 - Z.of_nat k)%Z +:+ "..."))
                          (Some "yellow") None None;
                        Painting.Sleep 1])
                    (seq 0 (Z.to_nat delay)),
               Painting.Ok tt)).
  { unfold Painting.paint_deployment_delay.
    rewrite pbind_emit.
    rewrite (for_each_emits _ _
               (fun i => [Painting.Echo (Painting.Text (pretty i +:+ "..."))
                            (Some "yellow") None None; Painting.Sleep 1]))
      by reflexivity.
    cbn [fst snd]. rewrite countdown_descends.
    f_equal. f_equal.
    generalize (seq 0 (Z.to_nat delay)) as ks.
    induction ks as [|k ks IH]; [reflexivity|].
    cbn [List.map flat_map]. now rewrite IH. }
  split; [exact E|]. rewrite E. cbn [fst]. split.
  - cbn [Painting.slept fold_right].
    assert (L : forall ks : list nat,
               fold_right
                 (fun e acc =>
                    match e with
                    | Painting.Sleep s => (s + acc)%Z
                    | _ => acc
                    end) 0%Z
                 (flat_map
                    (fun k =>
                       [Painting.Echo
                          (Painting.Text (pretty (delay - 1 - Z.of_nat k)%Z +:+ "..."))
                          (Some "yellow") None None;
                        Painting.Sleep 1]) ks)
               = Z.of_nat (length ks)).
    { induction ks as [|k ks IH]; [reflexivity|].
      cbn [flat_map app fold_right length]. rewrite IH. lia. }
    rewrite L, length_seq. lia.
  - intros n. unfold Painting.paint_deployment_delay.
    rewrite pbind_emit. unfold Painting.countdown.
    rewrite seqZ_nil by lia. reflexivity.
Qed.

Lemma string_length_append s1 s2 :
  String.length (s1 +:+ s2) = String.length s1 + String.length s2.
Proof.
  induction s1 as [|c s1 IH]; [reflexivity|].
  change (S (String.length (s1 +:+ s2)) = S (String.length s1 + String.length s2)).
  now rewrite IH.
Qed.

Lemma length_str_mul s n :
  String.length (Painting.str_mul s n) = n * String.length s.
Proof.
  induction n as [|n IH]; [reflexivity|].
  change (String.length (s +:+ Painting.str_mul s n) = S n * String.length s).
  rewrite string_length_append, IH. lia.
Qed.

Section ContractDeploymentFacts.
Context {Receipt : Type}.
Variable TOKEN : string.
Variable etherscan_url : string -> option string -> bool -> Painting.result string.
Variable paint_receipt_summary : Receipt -> option string -> string -> Painting.Paint unit.

(** X4.  The heading of a deployed contract is underlined to its width.  For an
    address of 42 characters, as a checksum address is, the row of asterisks
    that follows the heading is exactly as long as the heading's line
    "name (address)", whatever the name. *)
Theorem contract_heading_is_underlined
    contract_name contract_address receipts chain_name open_in_browser :
  String.length contract_address = 42 ->
  exists underline rest,
    fst (Painting.paint_contract_deployment TOKEN etherscan_url paint_receipt_summary
           contract_name contract_address receipts chain_name open_in_browser) =
      Painting.Echo
        (Painting.Text
           (Painting.CR +:+ Painting.str_mul " " 80 +:+ Painting.LF +:+
            Painting.heading_line contract_name contract_address))
        None (Some true) None
      :: Painting.Echo (Painting.Text underline) None None None :: rest /\
    String.length underline =
      String.length (Painting.heading_line contract_name contract_address).
Proof.
  intros H. unfold Painting.paint_contract_deployment. cbv zeta.
  rewrite !pbind_emit. cbn [fst].
  eexists _, _. split; [reflexivity|].
  rewrite length_str_mul. unfold Painting.heading_line.
  cbn [String.concat]. rewrite !string_length_append, H. cbn. lia.
Qed.

(** X5.  A network without an explorer does not stop the painting.  When
    [etherscan_url] raises a [ValueError] and the receipts get painted, the
    painter returns: it logs the failure in place of the link, paints every
    receipt, opens no tab, and logs the failure once more if it was asked to
    open one. *)
Theorem unknown_network_does_not_stop_painting
    contract_name contract_address receipts chain_name open_in_browser reason painted :
  etherscan_url contract_address chain_name (String.eqb contract_name TOKEN)
    = Painting.Err (Painting.ValueError reason) ->
  Painting.for_each receipts
    (fun item => paint_receipt_summary (snd item) chain_name (fst item))
    = (painted, Painting.Ok tt) ->
  Painting.paint_contract_deployment TOKEN etherscan_url paint_receipt_summary
    contract_name contract_address receipts chain_name open_in_browser =
    ([Painting.Echo
        (Painting.Text
           (Painting.CR +:+ Painting.str_mul " " 80 +:+ Painting.LF +:+
            Painting.heading_line contract_name contract_address))
        None (Some true) None;
      Painting.Echo
        (Painting.Text (Painting.str_mul "*" (45 + String.length contract_name)))
        None None None;
      Painting.LogInfo ("Failed Etherscan URL construction: " +:+ reason)]
     ++ painted
     ++ (if open_in_browser
         then [Painting.LogInfo ("Failed Etherscan URL construction: " +:+ reason)]
         else []),
     Painting.Ok tt).
Proof.
  intros Hurl Hpaint. unfold Painting.paint_contract_deployment. cbv zeta.
  rewrite !pbind_emit, Hurl, Hpaint.
  destruct open_in_browser; cbn; rewrite ?app_nil_r; reflexivity.
Qed.
End ContractDeploymentFacts.

Lemma contract_heading_is_underlined_witness :
  exists underline rest,
    fst (Painting.paint_contract_deployment "NuCypherToken" Cases.mainnet_only
           Cases.name_only "NuCypherToken" Cases.token_address
           [("txhash", JNull)] (Some "mainnet") false) =
      Painting.Echo
        (Painting.Text
           (Painting.CR +:+ Painting.str_mul " " 80 +:+ Painting.LF +:+
            Painting.heading_line "NuCypherToken" Cases.token_address))
        None (Some true) None
      :: Painting.Echo (Painting.Text underline) None None None :: rest /\
    String.length underline =
      String.length (Painting.heading_line "NuCypherToken" Cases.token_address).
Proof.
  apply (contract_heading_is_underlined "NuCypherToken" Cases.mainnet_only
           Cases.name_only "NuCypherToken" Cases.token_address
           [("txhash", JNull)] (Some "mainnet") false).
  vm_compute. reflexivity.
Defined.

Lemma unknown_network_does_not_stop_painting_witness :
  snd (Painting.paint_contract_deployment "NuCypherToken" Cases.mainnet_only
         Cases.name_only "StakingEscrow" Cases.token_address
         [("deploy", JNull); ("initialize", JNull)] (Some "ropsten") true)
    = Painting.Ok tt /\
  Painting.echoed
    (fst (Painting.paint_contract_deployment "NuCypherToken" Cases.mainnet_only
            Cases.name_only "StakingEscrow" Cases.token_address
            [("deploy", JNull); ("initialize", JNull)] (Some "ropsten") true))
    = [Painting.CR +:+ Painting.str_mul " " 80 +:+ Painting.LF +:+
       Painting.heading_line "StakingEscrow" Cases.token_address;
       Painting.str_mul "*" 58; "deploy"; "initialize"] /\
  Painting.opened
    (fst (Painting.paint_contract_deployment "NuCypherToken" Cases.mainnet_only
            Cases.name_only "StakingEscrow" Cases.token_address
            [("deploy", JNull); ("initialize", JNull)] (Some "ropsten") true))
    = [].
Proof.
  pose proof (unknown_network_does_not_stop_painting "NuCypherToken" Cases.mainnet_only
                Cases.name_only "StakingEscrow" Cases.token_address
                [("deploy", JNull); ("initialize", JNull)] (Some "ropsten") true
                "unknown network"
                [Painting.Echo (Painting.Text "deploy") None None None;
                 Painting.Echo (Painting.Text "initialize") None None None]) as H.
  by_running H. rewrite H. repeat split; vm_compute; reflexivity.
Defined.

Section AllocationFacts.
Variable NU_from_nunits : Z -> string.

Lemma sum_is_total amounts : Painting.sum amounts = fold_right Z.add 0%Z amounts.
Proof.
  unfold Painting.sum. apply fold_symmetric; intros; lia.
Qed.

Lemma allocation_rows_of_stakers items rows :
  forallb Painting.has_substakes items = true ->
  Painting.allocation_rows NU_from_nunits items rows =
    ([], Painting.Ok (rows ++ List.map (Painting.staked_row NU_from_nunits) items)).
Proof.
  revert rows. induction items as [|[address substakes] rest IH]; intros rows H.
  - cbn. now rewrite app_nil_r.
  - cbn [forallb] in H. apply andb_prop in H as [Hs Hrest].
    destruct substakes as [|s substakes]; [discriminate|].
    cbn [Painting.allocation_rows Painting.unpack_substakes Painting.pbind Painting.pret].
    rewrite IH by exact Hrest. cbn [app fst snd].
    rewrite sum_is_total, <- app_assoc. reflexivity.
Qed.

Lemma allocation_rows_without_substakes before address rest rows :
  forallb Painting.has_substakes before = true ->
  Painting.allocation_rows NU_from_nunits (before ++ (address, []) :: rest) rows =
    ([], Painting.Err
           (Painting.ValueError "not enough values to unpack (expected 2, got 0)")).
Proof.
  revert rows. induction before as [|[a substakes] before IH]; intros rows H.
  - reflexivity.
  - cbn [forallb] in H. apply andb_prop in H as [Hs Hrest].
    destruct substakes as [|s substakes]; [discriminate|].
    cbn [app Painting.allocation_rows Painting.unpack_substakes Painting.pbind
           Painting.pret].
    rewrite IH by exact Hrest. reflexivity.
Qed.

(** X6.  The staged allocations as a table.  When every staker of the file has
    at least one substake, the painter returns after four echoes: the
    number of allocations, the title centred in a line of 80 (31 signs on
    each side), one table with a row per staker, in the file's order,
    giving the address, the sum of the staker's amounts and one line per
    substake, and a closing echo without a message. *)
Theorem allocations_are_tabulated allocations :
  forallb Painting.has_substakes allocations = true ->
  Painting.paint_input_allocation_file NU_from_nunits allocations =
    ([Painting.Echo
        (Painting.Text ("Found " +:+ pretty (length allocations) +:+ " allocations:"))
        None None None;
      Painting.Echo
        (Painting.Text
           (Painting.str_mul "=" 31 +:+ "STAGED ALLOCATIONS" +:+ Painting.str_mul "=" 31))
        None (Some true) None;
      Painting.Echo
        (Painting.Tabulated
           (List.map (Painting.staked_row NU_from_nunits) allocations)
           ["Checksum address"; "Total staked"; "Substakes"] "fancy_grid")
        None None None;
      Painting.Echo Painting.NoMessage None None None],
     Painting.Ok tt).
Proof.
  intros H. unfold Painting.paint_input_allocation_file. cbv zeta.
  rewrite !pbind_emit, allocation_rows_of_stakers by exact H.
  reflexivity.
Qed.

(** X7.  A staker without substakes aborts the painting.  At the first staker
    whose list of substakes is empty the painter raises the [ValueError] of
    the failed unpacking; the count and the title are echoed by then, the
    table never is, whatever the other stakers hold. *)
Theorem staker_without_substakes_aborts_the_table before address rest :
  forallb Painting.has_substakes before = true ->
  Painting.paint_input_allocation_file NU_from_nunits (before ++ (address, []) :: rest) =
    ([Painting.Echo
        (Painting.Text
           ("Found " +:+ pretty (length (before ++ (address, []) :: rest))
            +:+ " allocations:"))
        None None None;
      Painting.Echo
        (Painting.Text
           (Painting.str_mul "=" 31 +:+ "STAGED ALLOCATIONS" +:+ Painting.str_mul "=" 31))
        None (Some true) None],
     Painting.Err (Painting.ValueError "not enough values to unpack (expected 2, got 0)")).
Proof.
  intros H. unfold Painting.paint_input_allocation_file. cbv zeta.
  rewrite !pbind_emit, allocation_rows_without_substakes by exact H.
  reflexivity.
Qed.
End AllocationFacts.

Lemma allocations_are_tabulated_witness :
  Painting.paint_input_allocation_file (fun n => pretty n +:+ " NuNit")
    [("0xA", [(100, 30); (50, 60)]%Z); ("0xB", [(7, 365)]%Z)] =
    ([Painting.Echo (Painting.Text "Found 2 allocations:") None None None;
      Painting.Echo
        (Painting.Text
           (Painting.str_mul "=" 31 +:+ "STAGED ALLOCATIONS" +:+ Painting.str_mul "=" 31))
        None (Some true) None;
      Painting.Echo
        (Painting.Tabulated
           [[Painting.Str "0xA"; Painting.NU 150;
             Painting.Str ("100 NuNit for 30 periods" +:+ Painting.LF +:+
                           "50 NuNit for 60 periods")];
            [Painting.Str "0xB"; Painting.NU 7; Painting.Str "7 NuNit for 365 periods"]]
           ["Checksum address"; "Total staked"; "Substakes"] "fancy_grid")
        None None None;
      Painting.Echo Painting.NoMessage None None None],
     Painting.Ok tt).
Proof.
  pose proof (allocations_are_tabulated (fun n => pretty n +:+ " NuNit")
                [("0xA", [(100, 30); (50, 60)]%Z); ("0xB", [(7, 365)]%Z)]) as H.
  by_running H. rewrite H. vm_compute. reflexivity.
Defined.

Lemma staker_without_substakes_aborts_the_table_witness :
  snd (Painting.paint_input_allocation_file (fun n => pretty n +:+ " NuNit")
         [("0xA", [(100, 30)]%Z); ("0xB", []); ("0xC", [(7, 365)]%Z)])
    = Painting.Err (Painting.ValueError "not enough values to unpack (expected 2, got 0)") /\
  Painting.echoed
    (fst (Painting.paint_input_allocation_file (fun n => pretty n +:+ " NuNit")
            [("0xA", [(100, 30)]%Z); ("0xB", []); ("0xC", [(7, 365)]%Z)]))
    = ["Found 3 allocations:";
       Painting.str_mul "=" 31 +:+ "STAGED ALLOCATIONS" +:+ Painting.str_mul "=" 31].
Proof.
  pose proof (staker_without_substakes_aborts_the_table (fun n => pretty n +:+ " NuNit")
                [("0xA", [(100, 30)]%Z)] "0xB" [("0xC", [(7, 365)]%Z)]) as H.
  by_running H. cbn [app] in H. rewrite H. split; vm_compute; reflexivity.
Defined.

(** ** The inspection of the deployed contracts *)

Lemma pbind_keeps_quiet {A B} (c : Painting.Paint A) (k : A -> Painting.Paint B) :
  Painting.ended_with_UnknownContract c = false ->
  (forall a, Painting.ended_with_UnknownContract (k a) = false) ->
  Painting.ended_with_UnknownContract (Painting.pbind c k) = false.
Proof.
  intros Hc Hk. destruct c as [evs [a|e]]; unfold Painting.pbind.
  - specialize (Hk a). destruct (k a) as [evs' r]. exact Hk.
  - exact Hc.
Qed.

Lemma try_except_keeps_quiet {A} (body handler : Painting.Paint A) :
  Painting.ended_with_UnknownContract handler = false ->
  Painting.ended_with_UnknownContract
    (Painting.try_except body (Painting.on_UnknownContract handler)) = false.
Proof.
  intros H. destruct body as [evs [a|e]]; [reflexivity|].
  destruct e; cbn; try reflexivity.
  destruct handler as [evs' r]. exact H.
Qed.

Lemma for_each_keeps_quiet {A} (items : list A) body :
  (forall x, Painting.ended_with_UnknownContract (body x) = false) ->
  Painting.ended_with_UnknownContract (Painting.for_each items body) = false.
Proof.
  intros H. induction items as [|x rest IH]; [reflexivity|].
  cbn [Painting.for_each]. apply pbind_keeps_quiet; [apply H|]. intros _. exact IH.
Qed.

Lemma echoed_in_app color evs1 evs2 :
  Painting.echoed_in color (evs1 ++ evs2) =
    Painting.echoed_in color evs1 ++ Painting.echoed_in color evs2.
Proof. unfold Painting.echoed_in. apply flat_map_app. Qed.

Section InspectionFacts.
Variable E : Painting.Surroundings.
Variable deployer_address : string.

(** X8.  An unknown contract never stops the inspection.  Whatever the registry
    holds and whatever the lookups, the deployers and the fee painter do,
    [paint_deployer_contract_inspection] does not end in
    [UnknownContract]: each place that can raise it is inside a [try] that
    catches it. *)
Theorem inspection_never_ends_with_UnknownContract :
  Painting.ended_with_UnknownContract
    (Painting.paint_deployer_contract_inspection E deployer_address) = false.
Proof.
  unfold Painting.paint_deployer_contract_inspection.
  apply pbind_keeps_quiet; [reflexivity|]. intros _.
  apply pbind_keeps_quiet; [reflexivity|]. intros _.
  apply pbind_keeps_quiet.
  { unfold Painting.paint_token.
    destruct (Painting.get_agent_NucypherTokenAgent E) as [agent|e]; [reflexivity|].
    destruct e; reflexivity. }
  intros token_agent.
  apply pbind_keeps_quiet; [reflexivity|]. intros _.
  apply pbind_keeps_quiet.
  { apply for_each_keeps_quiet. intros cls.
    unfold Painting.paint_dispatched. apply try_except_keeps_quiet. reflexivity. }
  intros _.
  apply pbind_keeps_quiet.
  { unfold Painting.paint_staking_interface. apply try_except_keeps_quiet. reflexivity. }
  intros _.
  unfold Painting.paint_policy_manager. apply try_except_keeps_quiet. reflexivity.
Qed.

(** X9.  A missing token breaks the inspection of an enrolled proxy.  When the
    token agent is not enrolled but the first dispatched contract, its
    dispatcher and its agent are found, the painter reports the token as
    not enrolled, echoes the banner of the proxies and then fails on the
    local [token_agent], which was never bound: the error is not an
    [UnknownContract], so it leaves the painter, and nothing of the
    contract that was found is painted. *)
Theorem missing_token_breaks_proxy_inspection cls classes bare_contract dispatcher agent :
  Painting.get_agent_NucypherTokenAgent E = Painting.Err Painting.UnknownContract ->
  Painting.dispatched_upgradeable_deployer_classes E = cls :: classes ->
  Painting.get_contract_by_name E (Painting.class_contract_name cls)
    (Painting.DispatcherDeployer_contract_name E) = Painting.Ok bare_contract ->
  Painting.DispatcherDeployer E bare_contract deployer_address = Painting.Ok dispatcher ->
  Painting.agency cls bare_contract = Painting.Ok agent ->
  Painting.paint_deployer_contract_inspection E deployer_address =
    ([Painting.Echo (Painting.Text (Painting.str_mul "-" 45)) None None None;
      Painting.Echo (Painting.Text (Painting.provider_info E)) None None None;
      Painting.Echo
        (Painting.Text
           (Painting.not_enrolled E (Painting.NucypherTokenAgent_contract_name E)))
        (Some "yellow") None None;
      Painting.Echo (Painting.Text (Painting.str_mul "-" 45)) None None (Some false);
      Painting.Echo (Painting.Text Painting.banner) None None None],
     Painting.Err (Painting.UnboundLocalError "token_agent")).
Proof.
  intros Htoken Hclasses Hbare Hdispatcher Hagent.
  unfold Painting.paint_deployer_contract_inspection, Painting.paint_token.
  rewrite Htoken, Hclasses.
  cbn [Painting.for_each]. unfold Painting.paint_dispatched.
  rewrite Hbare. cbn. rewrite Hdispatcher. cbn. rewrite Hagent. reflexivity.
Qed.

(** X10.  The inspection of an empty registry.  When neither the token, nor any
    dispatched contract, nor the staking interface, nor the policy manager
    is enrolled, the painter returns, and what it echoes in yellow is one
    "is not enrolled" line for each of them, in this order. *)
Theorem empty_registry_is_reported_contract_by_contract :
  Painting.get_agent_NucypherTokenAgent E = Painting.Err Painting.UnknownContract ->
  forallb
    (fun cls =>
       Painting.is_unknown
         (Painting.get_contract_by_name E (Painting.class_contract_name cls)
            (Painting.DispatcherDeployer_contract_name E)))
    (Painting.dispatched_upgradeable_deployer_classes E) = true ->
  Painting.StakingInterfaceAgent E = Painting.Err Painting.UnknownContract ->
  Painting.get_agent_PolicyManagerAgent E = Painting.Err Painting.UnknownContract ->
  snd (Painting.paint_deployer_contract_inspection E deployer_address) = Painting.Ok tt /\
  Painting.echoed_in "yellow"
    (fst (Painting.paint_deployer_contract_inspection E deployer_address)) =
    Painting.not_enrolled E (Painting.NucypherTokenAgent_contract_name E)
    :: List.map (fun cls => Painting.not_enrolled E (Painting.class_contract_name cls))
         (Painting.dispatched_upgradeable_deployer_classes E)
    ++ [String.concat ""
          [Painting.LF; "StakingInterface is not enrolled in "; Painting.filepath E];
        Painting.not_enrolled E (Painting.PolicyManagerDeployer_contract_name E)].
Proof.
  intros Htoken Hclasses Hstaking Hpolicy.
  assert (L : Painting.for_each (Painting.dispatched_upgradeable_deployer_classes E)
                (Painting.paint_dispatched E deployer_address None) =
              (flat_map
                 (fun cls =>
                    [Painting.Echo
                       (Painting.Text
                          (Painting.not_enrolled E (Painting.class_contract_name cls)))
                       (Some "yellow") None None;
                     Painting.Echo (Painting.Text Painting.sep) None None (Some false)])
                 (Painting.dispatched_upgradeable_deployer_classes E),
               Painting.Ok tt)).
  { revert Hclasses.
    generalize (Painting.dispatched_upgradeable_deployer_classes E) as classes.
    induction classes as [|cls classes IH]; intros H; [reflexivity|].
    cbn [forallb] in H. apply andb_prop in H as [Hcls Hrest].
    cbn [Painting.for_each flat_map]. rewrite (IH Hrest).
    unfold Painting.paint_dispatched at 1.
    destruct (Painting.get_contract_by_name E (Painting.class_contract_name cls)
                (Painting.DispatcherDeployer_contract_name E)) as [c|e];
      [discriminate|].
    destruct e; try discriminate. reflexivity. }
  unfold Painting.paint_deployer_contract_inspection, Painting.paint_token,
    Painting.paint_staking_interface, Painting.paint_policy_manager.
  rewrite Htoken, Hstaking, Hpolicy.
  cbn [Painting.call Painting.pbind Painting.try_except Painting.try_except_else
         Painting.on_UnknownContract Painting.echo Painting.echo_yellow
         Painting.echo_sep_no_nl Painting.emit Painting.pret app fst snd].
  rewrite L.
  cbn [Painting.pbind Painting.emit Painting.pret app fst snd].
  split; [reflexivity|].
  cbn [Painting.echoed_in flat_map app String.eqb Ascii.eqb Bool.eqb].
  f_equal. rewrite flat_map_app. f_equal.
  generalize (Painting.dispatched_upgradeable_deployer_classes E) as classes.
  induction classes as [|cls classes IH]; [reflexivity|].
  cbn [flat_map List.map app String.eqb Ascii.eqb Bool.eqb]. now rewrite IH.
Qed.
End InspectionFacts.

Lemma missing_token_breaks_proxy_inspection_witness :
  snd (Painting.paint_deployer_contract_inspection Cases.escrow_without_token "0xAD1")
    = Painting.Err (Painting.UnboundLocalError "token_agent") /\
  length (fst (Painting.paint_deployer_contract_inspection Cases.escrow_without_token
                 "0xAD1")) = 5.
Proof.
  pose proof (missing_token_breaks_proxy_inspection Cases.escrow_without_token "0xAD1"
                (Cases.deployer_class "StakingEscrow")
                [Cases.deployer_class "PolicyManager"; Cases.deployer_class "Adjudicator"]
                Cases.escrow
                {| Painting.deployer_contract_address := "0xD15";
                   Painting.deployer_contract := Cases.escrow |}
                (Cases.agent_of "StakingEscrow" Cases.escrow)) as H.
  by_running H. rewrite H. split; reflexivity.
Defined.

Lemma empty_registry_is_reported_contract_by_contract_witness :
  snd (Painting.paint_deployer_contract_inspection Cases.empty_registry "0xAD1")
    = Painting.Ok tt /\
  length (Painting.echoed_in "yellow"
            (fst (Painting.paint_deployer_contract_inspection Cases.empty_registry
                    "0xAD1"))) = 6.
Proof.
  pose proof (empty_registry_is_reported_contract_by_contract Cases.empty_registry
                "0xAD1") as H.
  by_running H. destruct H as [H1 H2]. rewrite H1, H2. split; reflexivity.
Defined.
